(** * Bug detection engine: rule table, line matcher, scorer, project fold

    A shallow embedding of [backend/ml_engine/model.py] (class
    [BugDetectionModel]) and of the aggregation loop of
    [scripts/scan_project.py], followed by the properties of the detection
    core.

    Conventions of the embedding.
    - Text is [string] over one-byte characters, read as the code points
      U+0000..U+00FF.
    - Python integers are [Z].  The feature vector is an int64 numpy array;
      every entry is a count bounded by the length of the text, and for a
      text of fewer than 2^61 characters neither an entry nor the
      complexity score leaves the int64 range, so [Z] arithmetic agrees
      with the int64 arithmetic (see [complexity_score_in_int64]).
    - Python floats are IEEE 754 binary64 values, [spec_float] with
      precision 53 and maximal exponent 1024, rounded to nearest even.
    - A Python exception is the [Raise] outcome of the [exc] monad.
    - A dict is an insertion-ordered association list. *)

From Stdlib Require Import ZArith List String Ascii Bool Lia Sorted SpecFloat.
Import ListNotations.

Local Open Scope string_scope.
Local Open Scope Z_scope.

(** ** Python runtime: exceptions *)

Module Py.

Inductive exn : Type :=
| KeyError (key : string)
| OSError (msg : string)
| UnicodeDecodeError (msg : string)
| ZeroDivisionError
| OtherError (msg : string).

Inductive exc (A : Type) : Type :=
| Ok (a : A)
| Raise (e : exn).

Arguments Ok {A} a.
Arguments Raise {A} e.

Definition bind {A B : Type} (m : exc A) (k : A -> exc B) : exc B :=
  match m with
  | Ok a => k a
  | Raise e => Raise e
  end.

Definition is_ok {A : Type} (m : exc A) : bool :=
  match m with
  | Ok _ => true
  | Raise _ => false
  end.

(** [for x in xs: st = body st x], an exception leaving the loop. *)
Fixpoint for_each {S A : Type} (body : S -> A -> exc S) (xs : list A) (st : S)
  : exc S :=
  match xs with
  | [] => Ok st
  | x :: xs' => bind (body st x) (for_each body xs')
  end.

(** ** Python runtime: str *)

Definition code_of (c : ascii) : Z := Z.of_N (N_of_ascii c).

Definition in_range (lo hi : Z) (c : ascii) : bool :=
  (lo <=? code_of c) && (code_of c <=? hi).

Definition is_upper (c : ascii) : bool := in_range 65 90 c.

(** [str.lower] on one character, restricted to the ASCII letters. *)
Definition lower (c : ascii) : ascii :=
  if is_upper c then ascii_of_N (N_of_ascii c + 32) else c.

(** [str.isspace] on one character below U+0100: TAB..CR, FS..US, SPACE,
    NEL and NBSP. *)
Definition is_space (c : ascii) : bool :=
  in_range 9 13 c || in_range 28 32 c
  || (code_of c =? 133) || (code_of c =? 160).

(** Alphanumeric characters below U+0100 (letters, digits and the
    numeric signs of Latin-1), as [str.isalnum] classifies them. *)
Definition is_alnum (c : ascii) : bool :=
  in_range 48 57 c || in_range 65 90 c || in_range 97 122 c
  || (code_of c =? 170) || (code_of c =? 178) || (code_of c =? 179)
  || (code_of c =? 181) || (code_of c =? 185) || (code_of c =? 186)
  || in_range 188 190 c || in_range 192 214 c || in_range 216 246 c
  || in_range 248 255 c.

Definition LF : ascii := ascii_of_nat 10.
Definition dquote : string := String (ascii_of_nat 34) EmptyString.

(** [s.split(sep)] for a separator of one character: never empty. *)
Fixpoint split (sep : ascii) (s : string) : list string :=
  match s with
  | EmptyString => [EmptyString]
  | String c rest =>
      if Ascii.eqb c sep then EmptyString :: split sep rest
      else match split sep rest with
           | l :: ls => String c l :: ls
           | [] => [String c EmptyString]
           end
  end.

Fixpoint lstrip (s : string) : string :=
  match s with
  | EmptyString => EmptyString
  | String c rest => if is_space c then lstrip rest else s
  end.

Fixpoint rstrip (s : string) : string :=
  match s with
  | EmptyString => EmptyString
  | String c rest =>
      match rstrip rest with
      | EmptyString => if is_space c then EmptyString else String c EmptyString
      | r => String c r
      end
  end.

(** [s.strip()] *)
Definition strip (s : string) : string := rstrip (lstrip s).

(** [len(s)] *)
Definition len (s : string) : Z := Z.of_nat (String.length s).

(** Occurrences of [sub] in [s] scanning from the left, the characters of
    an occurrence being skipped before the next one is looked for. *)
Fixpoint count_from (sub s : string) (skip : nat) : Z :=
  match s with
  | EmptyString => 0
  | String _ rest =>
      match skip with
      | S k => count_from sub rest k
      | O =>
          if String.prefix sub s
          then 1 + count_from sub rest (String.length sub - 1)
          else count_from sub rest 0
      end
  end.

(** [s.count(sub)]: the number of non-overlapping occurrences. *)
Definition count (s sub : string) : Z :=
  match sub with
  | EmptyString => len s + 1
  | _ => count_from sub s 0
  end.

(** [sub in s] *)
Fixpoint contains (sub s : string) : bool :=
  String.prefix sub s
  || match s with
     | EmptyString => false
     | String _ rest => contains sub rest
     end.

(** [enumerate(xs, start)] *)
Fixpoint enumerate {A : Type} (start : Z) (xs : list A) : list (Z * A) :=
  match xs with
  | [] => []
  | x :: xs' => (start, x) :: enumerate (start + 1) xs'
  end.

(** ** Python runtime: dict with string keys and integer values *)

Definition dict : Type := list (string * Z).

(** [d[k]] *)
Fixpoint getitem (d : dict) (k : string) : exc Z :=
  match d with
  | [] => Raise (KeyError k)
  | (k', v) :: d' => if String.eqb k' k then Ok v else getitem d' k
  end.

(** [d[k] = v]: an existing key keeps its place, a new key goes last. *)
Fixpoint setitem (d : dict) (k : string) (v : Z) : dict :=
  match d with
  | [] => [(k, v)]
  | (k', v') :: d' =>
      if String.eqb k' k then (k', v) :: d' else (k', v') :: setitem d' k v
  end.

(** [d[k] += n] *)
Definition iadd_item (d : dict) (k : string) (n : Z) : exc dict :=
  bind (getitem d k) (fun v => Ok (setitem d k (v + n))).

Definition keys (d : dict) : list string := map fst d.
Definition values (d : dict) : list Z := map snd d.

(** [sum] over integers *)
Definition sum (xs : list Z) : Z := fold_left Z.add xs 0.

(** ** Python runtime: float (binary64) *)

Definition prec : Z := 53.
Definition emax : Z := 1024.

Definition float : Type := spec_float.

Definition fadd : float -> float -> float := SFadd prec emax.
Definition fmul : float -> float -> float := SFmul prec emax.
Definition fdiv : float -> float -> float := SFdiv prec emax.
Definition flt : float -> float -> bool := SFltb.
Definition fle : float -> float -> bool := SFleb.
Definition feq : float -> float -> bool := SFeqb.

(** Conversion of an integer, rounded to nearest even. *)
Definition of_int (z : Z) : float := binary_normalize prec emax z 0 false.

(** The float literals of the program, as the doubles nearest to them. *)
Definition f0_0 : float := S754_zero false.
Definition f0_1 : float := S754_finite false 7205759403792794 (-56).
Definition f0_001 : float := S754_finite false 4611686018427388 (-62).
Definition f0_95 : float := S754_finite false 8556839292003942 (-53).
Definition f0_3 : float := S754_finite false 5404319552844595 (-54).
Definition f1_0 : float := S754_finite false 4503599627370496 (-52).

(** [min(a, b)]: the second argument is taken only when it is smaller. *)
Definition min (a b : float) : float := if flt b a then b else a.

(** [sum] over floats: the additions from left to right, from the
    integer 0 (CPython 3.12 and later compensate the rounding errors of
    the partial sums; the plain sum is modelled). *)
Definition fsum (xs : list float) : float := fold_left fadd xs f0_0.

(** [a / b] on floats: a zero divisor raises. *)
Definition truediv (a b : float) : exc float :=
  if feq b f0_0 then Raise ZeroDivisionError else Ok (fdiv a b).

End Py.

(** ** The regular expressions of the rule table ([re]) *)

Module Re.
Import Py.

Inductive regex : Type :=
| Void                          (* matches nothing *)
| Eps                           (* the empty match *)
| Chr (c : ascii)               (* a literal character *)
| OneOf (cs : list ascii)       (* [...] *)
| Space                         (* \s *)
| WordChar                      (* \w *)
| Seq (r1 r2 : regex)
| Alt (r1 r2 : regex)           (* r1|r2 *)
| Star (r : regex).             (* r* *)

(** r+ *)
Definition Plus (r : regex) : regex := Seq r (Star r).
(** r? *)
Definition Opt (r : regex) : regex := Alt r Eps.

(** A run of literal characters. *)
Fixpoint Str (s : string) : regex :=
  match s with
  | EmptyString => Eps
  | String c rest => Seq (Chr c) (Str rest)
  end.

(** Concatenation of the items of a pattern. *)
Fixpoint Cat (rs : list regex) : regex :=
  match rs with
  | [] => Eps
  | r :: rs' => Seq r (Cat rs')
  end.

(** \w: alphanumeric or underscore. *)
Definition is_word (c : ascii) : bool := is_alnum c || (code_of c =? 95).

(** A literal of the pattern against a character of the text; with
    [re.IGNORECASE] both are compared in lower case. *)
Definition chr_matches (ignorecase : bool) (p c : ascii) : bool :=
  if ignorecase then Ascii.eqb (lower p) (lower c) else Ascii.eqb p c.

Fixpoint nullable (r : regex) : bool :=
  match r with
  | Void => false
  | Eps => true
  | Chr _ | OneOf _ | Space | WordChar => false
  | Seq r1 r2 => nullable r1 && nullable r2
  | Alt r1 r2 => nullable r1 || nullable r2
  | Star _ => true
  end.

Definition seq (r1 r2 : regex) : regex :=
  match r1, r2 with
  | Void, _ => Void
  | _, Void => Void
  | Eps, _ => r2
  | _, _ => Seq r1 r2
  end.

Definition alt (r1 r2 : regex) : regex :=
  match r1, r2 with
  | Void, _ => r2
  | _, Void => r1
  | _, _ => Alt r1 r2
  end.

Definition step (b : bool) : regex := if b then Eps else Void.

(** What remains to be matched once [c] has been read. *)
Fixpoint deriv (ignorecase : bool) (c : ascii) (r : regex) : regex :=
  match r with
  | Void | Eps => Void
  | Chr p => step (chr_matches ignorecase p c)
  | OneOf cs => step (existsb (fun p => chr_matches ignorecase p c) cs)
  | Space => step (is_space c)
  | WordChar => step (is_word c)
  | Seq r1 r2 =>
      if nullable r1
      then alt (seq (deriv ignorecase c r1) r2) (deriv ignorecase c r2)
      else seq (deriv ignorecase c r1) r2
  | Alt r1 r2 => alt (deriv ignorecase c r1) (deriv ignorecase c r2)
  | Star r1 => seq (deriv ignorecase c r1) (Star r1)
  end.

(** [re.match(r, s, flags)] as a truth value: a prefix of [s] matches. *)
Fixpoint match_ (ignorecase : bool) (s : string) (r : regex) : bool :=
  nullable r
  || match s with
     | EmptyString => false
     | String c rest => match_ ignorecase rest (deriv ignorecase c r)
     end.

(** [re.search(r, s, flags)] as a truth value: a match starts somewhere. *)
Fixpoint search (ignorecase : bool) (r : regex) (s : string) : bool :=
  match_ ignorecase s r
  || match s with
     | EmptyString => false
     | String _ rest => search ignorecase r rest
     end.

(** [len(re.findall(r'\b[A-Z_]+\b', s))].  The class is made of word
    characters, so a match is a whole maximal run of word characters, and
    the run counts when all of it is in the class.  [run] is [None]
    outside a run and [Some b] inside one, [b] telling whether the run is
    in the class so far. *)
Definition is_const_char (c : ascii) : bool := is_upper c || (code_of c =? 95).

Fixpoint count_constant_runs (s : string) (run : option bool) : Z :=
  match s with
  | EmptyString =>
      match run with Some true => 1 | _ => 0 end
  | String c rest =>
      if is_word c then
        match run with
        | None => count_constant_runs rest (Some (is_const_char c))
        | Some b => count_constant_runs rest (Some (b && is_const_char c))
        end
      else
        match run with
        | Some true => 1 + count_constant_runs rest None
        | _ => count_constant_runs rest None
        end
  end.

Definition findall_constants (s : string) : Z := count_constant_runs s None.

End Re.

(** ** [backend/ml_engine/model.py]: class [BugDetectionModel] *)

Module BugDetectionModel.
Import Py Re.

(** An entry of the rule table: the dict with the keys ['pattern'],
    ['severity'] and ['message']. *)
Record PatternInfo : Type := {
  pattern : regex;
  pattern_severity : string;
  pattern_message : string
}.

Definition _load_bug_patterns : list PatternInfo := [
  (* r'==\s*None' *)
  {| pattern := Cat [Str "=="; Star Space; Str "None"];
     pattern_severity := "medium";
     pattern_message :=
       "Use " ++ dquote ++ "is None" ++ dquote ++ " instead of "
       ++ dquote ++ "== None" ++ dquote |};
  (* r'except\s*:' *)
  {| pattern := Cat [Str "except"; Star Space; Str ":"];
     pattern_severity := "high";
     pattern_message := "Bare except clause - specify exception type" |};
  (* r'eval\s*\(' *)
  {| pattern := Cat [Str "eval"; Star Space; Str "("];
     pattern_severity := "critical";
     pattern_message := "Use of eval() is dangerous - security risk" |};
  (* r'exec\s*\(' *)
  {| pattern := Cat [Str "exec"; Star Space; Str "("];
     pattern_severity := "critical";
     pattern_message := "Use of exec() is dangerous - security risk" |};
  (* r'var\s+\w+\s*=' *)
  {| pattern := Cat [Str "var"; Plus Space; Plus WordChar; Star Space; Str "="];
     pattern_severity := "low";
     pattern_message := "Use let or const instead of var in JavaScript" |};
  (* r'console\.log\(' *)
  {| pattern := Str "console.log(";
     pattern_severity := "low";
     pattern_message := "Remove console.log before production" |};
  (* r'TODO|FIXME|HACK' *)
  {| pattern := Alt (Str "TODO") (Alt (Str "FIXME") (Str "HACK"));
     pattern_severity := "medium";
     pattern_message := "Unresolved TODO/FIXME comment" |};
  (* r'password\s*=\s*[..]', the class holding the double and the single quote *)
  {| pattern := Cat [Str "password"; Star Space; Str "="; Star Space;
                     OneOf [ascii_of_nat 34; ascii_of_nat 39]];
     pattern_severity := "critical";
     pattern_message := "Hardcoded password detected - security risk" |};
  (* r'api[_-]?key\s*=\s*[..]', with the same class of the two quotes *)
  {| pattern := Cat [Str "api"; Opt (OneOf [ascii_of_nat 95; ascii_of_nat 45]);
                     Str "key"; Star Space; Str "="; Star Space;
                     OneOf [ascii_of_nat 34; ascii_of_nat 39]];
     pattern_severity := "critical";
     pattern_message := "Hardcoded API key detected - security risk" |};
  (* r'\.innerHTML\s*=' *)
  {| pattern := Cat [Str ".innerHTML"; Star Space; Str "="];
     pattern_severity := "high";
     pattern_message := "Potential XSS vulnerability with innerHTML" |}
].

(** [self.bug_patterns], set once by [__init__]. *)
Definition bug_patterns : list PatternInfo := _load_bug_patterns.

(** The feature vector, [features[0]] of the array. *)
Definition extract_features (code : string) : list Z := [
  Z.of_nat (List.length (split LF code));               (* Line count *)
  count code "if";                                      (* Conditional complexity *)
  count code "for" + count code "while";                (* Loop complexity *)
  count code "try";                                     (* Exception handling *)
  count code "def" + count code "function";             (* Function count *)
  findall_constants code;                               (* Constants *)
  count code "import" + count code "require";           (* Dependencies *)
  (if len code >? 1000 then 1 else 0);                  (* Long file *)
  (if count code (String LF EmptyString) >? 300 then 1 else 0);  (* Too many lines *)
  count code "# TODO" + count code "// TODO"            (* TODOs *)
].

(** A finding: the dict appended to [bugs]. *)
Record Bug : Type := {
  line : Z;
  severity : string;
  message : string;
  code : string;
  type : string
}.

(** The body of the inner loop for one line and one rule. *)
Definition check_pattern (i : Z) (text : string) (bugs : list Bug)
  (pattern_info : PatternInfo) : list Bug :=
  if search true (pattern pattern_info) text
  then (bugs ++ [ {| line := i;
                     severity := pattern_severity pattern_info;
                     message := pattern_message pattern_info;
                     code := strip text;
                     type := "pattern" |} ])%list
  else bugs.

Definition detect_pattern_bugs (code : string) : list Bug :=
  let lines := split LF code in
  fold_left
    (fun bugs '(i, text) => fold_left (check_pattern i text) bug_patterns bugs)
    (enumerate 1 lines) [].

Definition severity_count_init : dict :=
  [("critical", 0); ("high", 0); ("medium", 0); ("low", 0)].

(** The body of the loop: [severity_count[bug['severity']] += 1]. *)
Definition count_severity (severity_count : dict) (bug : Bug) : exc dict :=
  iadd_item severity_count (severity bug) 1.

Definition _calculate_severity (bugs : list Bug) : exc dict :=
  for_each count_severity bugs severity_count_init.

(** The dict returned by [predict]. *)
Record Result : Type := {
  has_bugs : bool;
  confidence : float;
  bugs_found : list Bug;
  total_issues : Z;
  severity_breakdown : dict
}.

(** [features[0][1] + features[0][2]] *)
Definition complexity_score_of (features : list Z) : Z :=
  nth 1 features 0 + nth 2 features 0.

(** [features[0][0]] *)
Definition line_count_of (features : list Z) : Z := nth 0 features 0.

(** [min(0.95, complexity_score * 0.1 + line_count * 0.001)] *)
Definition bug_probability_of (features : list Z) : float :=
  Py.min f0_95
    (fadd (fmul (of_int (complexity_score_of features)) f0_1)
          (fmul (of_int (line_count_of features)) f0_001)).

Definition predict (code : string) : exc Result :=
  let pattern_bugs := detect_pattern_bugs code in
  let features := extract_features code in
  let bug_probability := bug_probability_of features in
  let has_bugs :=
    flt f0_3 bug_probability || (Z.of_nat (List.length pattern_bugs) >? 0) in
  bind (_calculate_severity pattern_bugs) (fun breakdown =>
  Ok {| has_bugs := has_bugs;
        confidence := bug_probability;
        bugs_found := pattern_bugs;
        total_issues := Z.of_nat (List.length pattern_bugs);
        severity_breakdown := breakdown |}).

End BugDetectionModel.

(** ** [scripts/scan_project.py]: the aggregation of [scan_project]

    The traversal of the directory comes before what is modelled here and
    the writing of the JSON and HTML reports after it. *)

Module ScanProject.
Import Py.

(** An entry of [all_results['files']]. *)
Record FileEntry : Type := {
  path : string;
  file_has_bugs : bool;
  file_total_issues : Z;
  file_confidence : float
}.

(** The dict [all_results]. *)
Record AllResults : Type := {
  total_files : Z;
  files_with_bugs : Z;
  total_issues : Z;
  severity_breakdown : dict;
  files : list FileEntry;
  confidence : float
}.

Definition all_results_init : AllResults :=
  {| total_files := 0;
     files_with_bugs := 0;
     total_issues := 0;
     severity_breakdown :=
       [("critical", 0); ("high", 0); ("medium", 0); ("low", 0)];
     files := [];
     confidence := f0_0 |}.

(** A file that the traversal found: its path and what opening and
    reading it gives. *)
Definition SourceFile : Type := (string * exc string)%type.

(** The filter on the paths: node_modules, venv, .git and dist are left
    out. *)
Definition keep_file (f : string) : bool :=
  negb (contains "node_modules" f)
  && negb (contains "venv" f)
  && negb (contains ".git" f)
  && negb (contains "dist" f).

(** [for severity, count in items: breakdown[severity] += count].  The
    loop stops at the first key that the summary does not have; the
    additions made before it stay. *)
Fixpoint aggregate_severity (items : list (string * Z)) (breakdown : dict)
  : dict * option exn :=
  match items with
  | [] => (breakdown, None)
  | (severity, count) :: rest =>
      match iadd_item breakdown severity count with
      | Ok breakdown' => aggregate_severity rest breakdown'
      | Raise e => (breakdown, Some e)
      end
  end.

Section Scan.

(** [model.predict] *)
Variable predict : string -> exc BugDetectionModel.Result.

(** The body of the loop over the files, with its [try] / [except]:
    an exception ends the body and keeps the updates made before it. *)
Definition scan_file (all_results : AllResults) (file : SourceFile)
  : AllResults :=
  let '(file_path, content) := file in
  match content with
  | Raise _ => all_results
  | Ok code =>
      match predict code with
      | Raise _ => all_results
      | Ok results =>
          let '(breakdown, raised) :=
            aggregate_severity
              (BugDetectionModel.severity_breakdown results)
              (severity_breakdown all_results) in
          {| total_files := total_files all_results + 1;
             files_with_bugs :=
               if BugDetectionModel.has_bugs results
               then files_with_bugs all_results + 1
               else files_with_bugs all_results;
             total_issues :=
               total_issues all_results
               + BugDetectionModel.total_issues results;
             severity_breakdown := breakdown;
             files :=
               match raised with
               | Some _ => files all_results
               | None =>
                   (files all_results ++
                    [ {| path := file_path;
                         file_has_bugs := BugDetectionModel.has_bugs results;
                         file_total_issues :=
                           BugDetectionModel.total_issues results;
                         file_confidence :=
                           BugDetectionModel.confidence results |} ])%list
               end;
             confidence := confidence all_results |}
      end
  end.

(** The average confidence, computed when a file was scanned; the
    division is outside the [try] of the loop.  The number of files is
    converted as a float of any magnitude: the [OverflowError] of an
    integer of 2^1024 or more is left out. *)
Definition average_confidence (all_results : AllResults) : exc AllResults :=
  if total_files all_results >? 0 then
    bind (truediv (fsum (map file_confidence (files all_results)))
                  (of_int (total_files all_results)))
      (fun average =>
         Ok {| total_files := total_files all_results;
               files_with_bugs := files_with_bugs all_results;
               total_issues := total_issues all_results;
               severity_breakdown := severity_breakdown all_results;
               files := files all_results;
               confidence := average |})
  else Ok all_results.

(** The loop over [code_files] and the average that follows it. *)
Definition scan_files (code_files : list SourceFile) : exc AllResults :=
  average_confidence (fold_left scan_file code_files all_results_init).

End Scan.

(** [scan_project], from the files found under [root_dir] to the summary
    [all_results]. *)
Definition scan_project (found : list SourceFile) : exc AllResults :=
  scan_files BugDetectionModel.predict
    (filter (fun f => keep_file (fst f)) found).

End ScanProject.

(** ** The properties, in the words of the specification *)

Module Spec.
Import Py Re BugDetectionModel.

(** The four canonical severities, in the order of the breakdown. *)
Definition severities : list string := ["critical"; "high"; "medium"; "low"].

Definition valid_severity (s : string) : bool :=
  existsb (String.eqb s) severities.

(** The finding of a rule on a line. *)
Definition finding (i : Z) (text : string) (rule : PatternInfo) : Bug :=
  {| line := i;
     severity := pattern_severity rule;
     message := pattern_message rule;
     code := strip text;
     type := "pattern" |}.

(** The findings of one line: one for each rule that matches, in the
    order of the table. *)
Definition findings_of_line (i : Z) (text : string) : list Bug :=
  map (finding i text)
      (filter (fun rule => search true (pattern rule) text) bug_patterns).

(** Line-then-rule order: the lines in ascending order, numbered from 1,
    each with its findings in rule order. *)
Definition line_then_rule (code : string) : list Bug :=
  flat_map (fun '(i, text) => findings_of_line i text)
           (enumerate 1 (split LF code)).

(** The number of findings of a severity. *)
Definition tally (s : string) (bugs : list Bug) : Z :=
  Z.of_nat (List.length (filter (fun b => String.eqb (severity b) s) bugs)).

(** The confidence scorer on the entries of the feature vector. *)
Definition scorer (conditional_count loop_count line_count : Z) : float :=
  let complexity_score := conditional_count + loop_count in
  Py.min f0_95
    (fadd (fmul (of_int complexity_score) f0_1)
          (fmul (of_int line_count) f0_001)).

(** The arithmetic mean of the confidences, 0 when there is none. *)
Definition mean (xs : list float) : float :=
  match xs with
  | [] => f0_0
  | _ => fdiv (fsum xs) (of_int (Z.of_nat (List.length xs)))
  end.

(** A bucket of a breakdown, 0 when the key is absent. *)
Definition bucket (d : dict) (s : string) : Z :=
  match getitem d s with
  | Ok n => n
  | Raise _ => 0
  end.

(** A per-file result whose breakdown has the four canonical keys. *)
Definition well_formed (r : Result) : Prop :=
  keys (BugDetectionModel.severity_breakdown r) = severities.

(** The entry of a scanned file in the per-file sequence. *)
Definition per_file (p : string) (r : Result) : ScanProject.FileEntry :=
  {| ScanProject.path := p;
     ScanProject.file_has_bugs := has_bugs r;
     ScanProject.file_total_issues := total_issues r;
     ScanProject.file_confidence := confidence r |}.

(** A scanned file: its path, its text and the result of its analysis. *)
Definition Scanned : Type := (string * string * Result)%type.

Definition source_of (x : Scanned) : ScanProject.SourceFile :=
  let '(p, text, _) := x in (p, Ok text).

Definition result_of (x : Scanned) : Result := snd x.

(** [predict] gives each file its result, a well-formed one. *)
Definition analysed_by (predict : string -> exc Result) (x : Scanned) : Prop :=
  let '(_, text, r) := x in predict text = Ok r /\ well_formed r.

(** A file is skipped when reading it or analysing it raises. *)
Definition fails (predict : string -> exc Result) (f : ScanProject.SourceFile)
  : bool :=
  match snd f with
  | Raise _ => true
  | Ok code => negb (is_ok (predict code))
  end.

(** The value order on mantissa-exponent pairs, both scaled to the lower
    of the two exponents: [m0 * 2^e0 <= m * 2^e]. *)
Definition le_scaled (m0 : positive) (e0 : Z) (m : positive) (e : Z) : Prop :=
  Z.pos m0 * 2 ^ (e0 - Z.min e0 e) <= Z.pos m * 2 ^ (e - Z.min e0 e).

(** [x] is plus infinity or a positive float with a mantissa of 53 bits
    that is at least [m0 * 2^e0]. *)
Definition at_least (m0 : positive) (e0 : Z) (x : float) : Prop :=
  match x with
  | S754_infinity false => True
  | S754_finite false m e =>
      2 ^ 52 <= Z.pos m < 2 ^ 53 /\ (e0 < e \/ (e = e0 /\ Z.pos m0 <= Z.pos m))
  | _ => False
  end.

(** [x] is +0, a positive float or plus infinity. *)
Definition nonneg (x : float) : Prop :=
  match x with
  | S754_zero false | S754_infinity false | S754_finite false _ _ => True
  | _ => False
  end.

(** [m * 2^e] is within half a unit in the last place of [num / den]. *)
Definition nearest (m : positive) (e : Z) (num den : Z) : Prop :=
  2 * Z.abs (den * Z.pos m - num * 2 ^ (- e)) <= den.

(** The range of an int64. *)
Definition int64 (z : Z) : Prop := - 2 ^ 63 <= z < 2 ^ 63.

(** The mantissa of 1.0. *)
Definition one_m : positive := 4503599627370496.

(** The lines of the examples. *)
Definition null_comparison : string := "if x == None: pass".
Definition identity_test : string := "if x is None: pass".
Definition two_secrets : string :=
  "password = " ++ dquote ++ "t" ++ dquote ++ "; api_key = "
  ++ dquote ++ "sk-x" ++ dquote.



End Spec.

(** ** [model.py] and [detect.py]: the model as an object

    [predict] reads the rule table from the attribute [self.bug_patterns],
    which [__init__] sets and which a caller can replace; the classifier
    and the vectorizer are the two other attributes, which [load_model]
    replaces and which the detection never reads. *)

Module Instance.
Import Py Re BugDetectionModel.

Section Estimators.

(** The scikit-learn objects, of which nothing is looked at. *)
Variable Estimator : Type.

(** [RandomForestClassifier(n_estimators=100, max_depth=20,
    random_state=42)] and [TfidfVectorizer(max_features=1000, ...)]. *)
Variable RandomForestClassifier TfidfVectorizer : Estimator.

(** The attributes of an instance. *)
Record Self : Type := {
  self_model : Estimator;
  self_vectorizer : Estimator;
  self_bug_patterns : list PatternInfo
}.

Definition __init__ : Self :=
  {| self_model := RandomForestClassifier;
     self_vectorizer := TfidfVectorizer;
     self_bug_patterns := _load_bug_patterns |}.

Definition detect_pattern_bugs (self : Self) (code : string) : list Bug :=
  let lines := split LF code in
  fold_left
    (fun bugs '(i, text) =>
       fold_left (check_pattern i text) (self_bug_patterns self) bugs)
    (enumerate 1 lines) [].

Definition predict (self : Self) (code : string) : exc Result :=
  let pattern_bugs := detect_pattern_bugs self code in
  let features := extract_features code in
  let bug_probability := bug_probability_of features in
  let has_bugs :=
    flt f0_3 bug_probability || (Z.of_nat (List.length pattern_bugs) >? 0) in
  bind (_calculate_severity pattern_bugs) (fun breakdown =>
  Ok {| has_bugs := has_bugs;
        confidence := bug_probability;
        bugs_found := pattern_bugs;
        total_issues := Z.of_nat (List.length pattern_bugs);
        severity_breakdown := breakdown |}).

(** What [open(filepath, 'rb')] and [pickle.load] give: no such file,
    another exception, or the unpickled dict. *)
Inductive Loaded : Type :=
| FileNotFound
| LoadError (e : exn)
| Pickle (data : list (string * Estimator)).

(** How a call of [load_model] ends. *)
Inductive LoadResult : Type :=
| LoadReturns
| FileNotFoundError
| LoadRaises (e : exn).

(** [data[k]] on the unpickled dict. *)
Fixpoint pickle_get (data : list (string * Estimator)) (k : string)
  : option Estimator :=
  match data with
  | [] => None
  | (k', v) :: rest => if String.eqb k' k then Some v else pickle_get rest k
  end.

(** [load_model]: the instance after the call and how the call ends.  An
    assignment made before a missing key stays. *)
Definition load_model (self : Self) (file : Loaded) : Self * LoadResult :=
  match file with
  | FileNotFound => (self, FileNotFoundError)
  | LoadError e => (self, LoadRaises e)
  | Pickle data =>
      match pickle_get data "model" with
      | None => (self, LoadRaises (KeyError "model"))
      | Some m =>
          let self1 := {| self_model := m;
                          self_vectorizer := self_vectorizer self;
                          self_bug_patterns := self_bug_patterns self |} in
          match pickle_get data "vectorizer" with
          | None => (self1, LoadRaises (KeyError "vectorizer"))
          | Some v =>
              ({| self_model := m;
                  self_vectorizer := v;
                  self_bug_patterns := self_bug_patterns self |},
               LoadReturns)
          end
      end
  end.

(** [detect_bugs(code, model_path)] of [detect.py], on the files that
    [files] describes; [None] and the empty path load nothing. *)
Definition detect_bugs (files : string -> Loaded) (code : string)
  (model_path : option string) : exc Result :=
  let model := __init__ in
  match model_path with
  | None => predict model code
  | Some p =>
      if String.eqb p EmptyString then predict model code
      else
        match load_model model (files p) with
        | (model', LoadReturns) => predict model' code
        | (model', FileNotFoundError) => predict model' code
        | (_, LoadRaises e) => Raise e
        end
  end.

End Estimators.

End Instance.

(** ** [scripts/calculate_metrics.py] *)

Module Metrics.
Import Py.

(** [f.readlines()]: the lines with their line ends, none for the empty
    text. *)
Fixpoint readlines (s : string) : list string :=
  match s with
  | EmptyString => []
  | String c rest =>
      if Ascii.eqb c LF then String LF EmptyString :: readlines rest
      else match readlines rest with
           | [] => [String c EmptyString]
           | l :: ls => String c l :: ls
           end
  end.

(** The dict [metrics]. *)
Record MetricsDict : Type := {
  total_lines : Z;
  total_files : Z;
  avg_file_length : float;
  comment_lines : Z;
  blank_lines : Z
}.

Definition metrics_init : MetricsDict :=
  {| total_lines := 0;
     total_files := 0;
     avg_file_length := f0_0;
     comment_lines := 0;
     blank_lines := 0 |}.

(** The body of the loop over the lines of a file. *)
Definition count_line (metrics : MetricsDict) (line : string) : MetricsDict :=
  let stripped := strip line in
  if String.eqb stripped EmptyString then
    {| total_lines := total_lines metrics;
       total_files := total_files metrics;
       avg_file_length := avg_file_length metrics;
       comment_lines := comment_lines metrics;
       blank_lines := blank_lines metrics + 1 |}
  else if String.prefix "#" stripped || String.prefix "//" stripped then
    {| total_lines := total_lines metrics;
       total_files := total_files metrics;
       avg_file_length := avg_file_length metrics;
       comment_lines := comment_lines metrics + 1;
       blank_lines := blank_lines metrics |}
  else metrics.

(** The body of the loop over the files, with its [try] / [except]: a
    file that cannot be opened or read changes nothing. *)
Definition count_file (metrics : MetricsDict) (file : ScanProject.SourceFile)
  : MetricsDict :=
  match snd file with
  | Raise _ => metrics
  | Ok text =>
      let lines := readlines text in
      fold_left count_line lines
        {| total_lines := total_lines metrics + Z.of_nat (List.length lines);
           total_files := total_files metrics + 1;
           avg_file_length := avg_file_length metrics;
           comment_lines := comment_lines metrics;
           blank_lines := blank_lines metrics |}
  end.

(** An integer as the dividend or divisor of [/]. *)
Definition exact (z : Z) : float :=
  match z with
  | Z0 => S754_zero false
  | Zpos p => S754_finite false p 0
  | Zneg p => S754_finite true p 0
  end.

(** [a / b] on integers: the quotient rounded once to the nearest float;
    a zero divisor raises (the [OverflowError] of a quotient of 2^1024 or
    more is left out). *)
Definition int_truediv (a b : Z) : exc float :=
  if b =? 0 then Raise ZeroDivisionError
  else Ok (SFdiv prec emax (exact a) (exact b)).

(** [calculate_metrics], from the files found under the current
    directory to the dict it returns. *)
Definition calculate_metrics (found : list ScanProject.SourceFile)
  : exc MetricsDict :=
  let code_files :=
    filter (fun f => negb (contains "node_modules" (fst f))) found in
  let metrics := fold_left count_file code_files metrics_init in
  if total_files metrics >? 0 then
    bind (int_truediv (total_lines metrics) (total_files metrics))
      (fun average =>
         Ok {| total_lines := total_lines metrics;
               total_files := total_files metrics;
               avg_file_length := average;
               comment_lines := comment_lines metrics;
               blank_lines := blank_lines metrics |})
  else Ok metrics.

End Metrics.

(** ** [backend/ml_engine/train.py] *)

Module Train.

(** The dict returned by [generate_training_data]: the values of
    ['buggy'] and of ['clean']. *)
Definition generate_training_data : list string * list string :=
  (["if x == None: pass";
    "try:
    risky_operation()
except:
    pass";
    "password = 'hardcoded123'";
    "eval(user_input)";
    "api_key = 'sk-1234567890'";
    "element.innerHTML = user_data";
    "var x = 10; // TODO: fix this";
    "console.log('debug info')";
    "exec(malicious_code)";
    "if condition == True:"],
   ["if x is None: pass";
    "try:
    safe_operation()
except ValueError as e:
    handle_error(e)";
    "password = os.getenv('PASSWORD')";
    "result = safe_parse(user_input)";
    "api_key = os.getenv('API_KEY')";
    "element.textContent = sanitize(user_data)";
    "const x = 10;";
    "logger.debug('debug info')";
    "result = safe_execute(code)";
    "if condition:"]).

End Train.

(** ** Further properties, in the words of the code *)

Module Props.
Import Py Re BugDetectionModel Spec.

(** What a finding reports, the text of the line apart. *)
Definition headline (b : Bug) : Z * string * string :=
  (line b, severity b, message b).

(** A finding moved [n] lines down. *)
Definition shift_line (n : Z) (b : Bug) : Bug :=
  {| line := line b + n;
     severity := severity b;
     message := message b;
     code := code b;
     type := type b |}.

(** A text with its ASCII letters in lower case. *)
Fixpoint lower_text (s : string) : string :=
  match s with
  | EmptyString => EmptyString
  | String c rest => String (lower c) (lower_text rest)
  end.

(** The findings of the rules [rules] on a line. *)
Definition findings_with (rules : list PatternInfo) (i : Z) (text : string)
  : list Bug :=
  map (finding i text)
      (filter (fun rule => search true (pattern rule) text) rules).

(** The breakdown that counts the findings of each severity. *)
Definition breakdown_of (bugs : list Bug) : dict :=
  map (fun s => (s, tally s bugs)) severities.

(** [complexity_score * 0.1 + line_count * 0.001] *)
Definition weighted_sum (complexity_score line_count : Z) : float :=
  fadd (fmul (of_int complexity_score) f0_1) (fmul (of_int line_count) f0_001).

(** In exact arithmetic: the weighted sum is above 0.3, or it is 0.3 with
    some of it coming from the complexity score. *)
Definition exceeds_threshold (complexity_score line_count : Z) : bool :=
  (300 <? 100 * complexity_score + line_count)
  || ((100 * complexity_score + line_count =? 300) && (0 <? complexity_score)).

(** In exact arithmetic: the weighted sum is at least 0.95. *)
Definition saturates (complexity_score line_count : Z) : bool :=
  950 <=? 100 * complexity_score + line_count.

(** The integers from [lo], [n] of them. *)
Definition range (lo n : nat) : list Z := map Z.of_nat (List.seq lo n).

(** A mantissa of 53 bits. *)
Definition bits53 (m : positive) : Prop := 2 ^ 52 <= Z.pos m < 2 ^ 53.

(** The result of [predict] on a text, in closed form. *)
Definition analysis (code : string) : Result :=
  let bugs := line_then_rule code in
  let score :=
    scorer (count code "if") (count code "for" + count code "while")
           (Z.of_nat (List.length (split LF code))) in
  {| has_bugs := flt f0_3 score || (0 <? Z.of_nat (List.length bugs));
     confidence := score;
     bugs_found := bugs;
     total_issues := Z.of_nat (List.length bugs);
     severity_breakdown := breakdown_of bugs |}.

(** The files that a scan reads: those that the filter keeps and that
    can be read, with their text, in the order they are found. *)
Definition scanned_files (keep : string -> bool)
  (found : list ScanProject.SourceFile) : list (string * string) :=
  flat_map (fun f => match snd f with
                     | Ok text => if keep (fst f) then [(fst f, text)] else []
                     | Raise _ => []
                     end) found.

(** The summary of a project, in closed form. *)
Definition summary_of (files : list (string * string)) : ScanProject.AllResults :=
  let results := map (fun f => analysis (snd f)) files in
  {| ScanProject.total_files := Z.of_nat (List.length files);
     ScanProject.files_with_bugs :=
       Z.of_nat (List.length (filter has_bugs results));
     ScanProject.total_issues := Py.sum (map total_issues results);
     ScanProject.severity_breakdown :=
       map (fun s => (s, Py.sum (map (fun r => bucket (severity_breakdown r) s)
                                     results)))
           severities;
     ScanProject.files := map (fun f => per_file (fst f) (analysis (snd f))) files;
     ScanProject.confidence := mean (map confidence results) |}.

(** A line of a file is blank, or a comment. *)
Definition is_blank (line : string) : bool := String.eqb (strip line) EmptyString.

Definition is_comment (line : string) : bool :=
  negb (is_blank line)
  && (String.prefix "#" (strip line) || String.prefix "//" (strip line)).

(** The text ends a line: it is empty or its last character is a line
    feed. *)
Fixpoint ends_line (s : string) : bool :=
  match s with
  | EmptyString => true
  | String c EmptyString => Ascii.eqb c LF
  | String _ rest => ends_line rest
  end.

(** The metrics of a project, in closed form: the files counted are
    those without [node_modules] in their path that can be read. *)
Definition counted_texts (found : list ScanProject.SourceFile) : list string :=
  map snd (scanned_files (fun p => negb (contains "node_modules" p)) found).

Definition lines_where (keep : string -> bool) (texts : list string) : Z :=
  Py.sum (map (fun t => Z.of_nat (List.length
                                    (filter keep (Metrics.readlines t))))
              texts).

Definition metrics_of (found : list ScanProject.SourceFile)
  : Metrics.MetricsDict :=
  let texts := counted_texts found in
  let total_files := Z.of_nat (List.length texts) in
  let total_lines := lines_where (fun _ => true) texts in
  {| Metrics.total_lines := total_lines;
     Metrics.total_files := total_files;
     Metrics.avg_file_length :=
       if total_files =? 0 then f0_0
       else SFdiv prec emax (Metrics.exact total_lines)
                  (Metrics.exact total_files);
     Metrics.comment_lines := lines_where is_comment texts;
     Metrics.blank_lines := lines_where is_blank texts |}.

End Props.

Import Py Re BugDetectionModel Spec.

(** The cases of a float: the two zeros, the two infinities, NaN and the
    finite numbers of either sign. *)
Ltac float_cases x m e := destruct x as [[|]|[|]| |[|] m e].

(** ** Facts on the runtime model *)

Lemma split_not_nil (sep : ascii) (s : string) : split sep s <> [].
Proof.
  induction s as [|c rest IH]; simpl; [discriminate|].
  destruct (Ascii.eqb c sep); [discriminate|].
  destruct (split sep rest); [contradiction|discriminate].
Qed.

Lemma split_length_pos (sep : ascii) (s : string) :
  1 <= Z.of_nat (List.length (split sep s)).
Proof.
  pose proof (split_not_nil sep s) as H.
  destruct (split sep s); [contradiction|simpl; lia].
Qed.

Lemma count_from_nonneg (sub s : string) (skip : nat) :
  0 <= count_from sub s skip.
Proof.
  revert skip; induction s as [|c rest IH]; intros skip;
    cbn [count_from]; [lia|].
  destruct skip as [|k]; [|apply IH].
  destruct (String.prefix sub (String c rest)).
  - specialize (IH (String.length sub - 1)%nat); lia.
  - apply IH.
Qed.

Lemma count_nonneg (s sub : string) : 0 <= count s sub.
Proof.
  destruct sub; simpl; [unfold len; lia|apply count_from_nonneg].
Qed.

Lemma count_from_le_length (sub s : string) (skip : nat) :
  count_from sub s skip <= len s.
Proof.
  unfold len; revert skip; induction s as [|c rest IH]; intros skip;
    cbn [count_from String.length]; [lia|].
  rewrite Nat2Z.inj_succ.
  destruct skip as [|k].
  - destruct (String.prefix sub (String c rest)).
    + specialize (IH (String.length sub - 1)%nat); lia.
    + specialize (IH 0%nat); lia.
  - specialize (IH k); lia.
Qed.

Lemma count_le_length (s sub : string) : count s sub <= len s + 1.
Proof.
  destruct sub; simpl; [lia|].
  pose proof (count_from_le_length (String a sub) s 0); lia.
Qed.

Lemma split_length_le (sep : ascii) (s : string) :
  Z.of_nat (List.length (split sep s)) <= len s + 1.
Proof.
  unfold len; induction s as [|c rest IH]; cbn [split String.length];
    [simpl; lia|].
  rewrite Nat2Z.inj_succ.
  pose proof (split_not_nil sep rest) as Hne.
  destruct (Ascii.eqb c sep); cbn [List.length].
  - rewrite Nat2Z.inj_succ; lia.
  - destruct (split sep rest) as [|l ls]; [contradiction|].
    cbn [List.length] in *; lia.
Qed.

Lemma count_constant_runs_bounds (s : string) (run : option bool) :
  0 <= count_constant_runs s run <= len s + 1.
Proof.
  unfold len; revert run; induction s as [|c rest IH]; intros run;
    cbn [count_constant_runs String.length].
  - destruct run as [[|]|]; simpl; lia.
  - rewrite Nat2Z.inj_succ.
    destruct (is_word c); destruct run as [[|]|];
      match goal with
      | |- context [count_constant_runs rest ?r] => specialize (IH r)
      end; lia.
Qed.

(** X2. For a text of fewer than 2^61 characters the entries of the feature
    vector and the complexity score are in the int64 range: the int64
    addition of [predict] does not wrap. *)
Lemma complexity_score_in_int64 (code : string) :
  len code < 2 ^ 61 ->
  Forall int64 (extract_features code)
  /\ int64 (complexity_score_of (extract_features code)).
Proof.
  intros Hlen; unfold int64, complexity_score_of, extract_features; cbn [nth].
  assert (Hc : forall sub, 0 <= count code sub <= len code + 1)
    by (intros sub; split; [apply count_nonneg|apply count_le_length]).
  pose proof (split_length_le LF code) as Hs.
  pose proof (split_length_pos LF code) as Hs'.
  pose proof (count_constant_runs_bounds code None) as Hr.
  pose proof (Hc "if"); pose proof (Hc "for"); pose proof (Hc "while").
  pose proof (Hc "try"); pose proof (Hc "def"); pose proof (Hc "function").
  pose proof (Hc "import"); pose proof (Hc "require").
  pose proof (Hc "# TODO"); pose proof (Hc "// TODO").
  change (2 ^ 61) with 2305843009213693952 in Hlen.
  change (2 ^ 63) with 9223372036854775808.
  unfold findall_constants.
  split; [|lia].
  repeat constructor; try lia;
    match goal with
    | |- context [if ?b then _ else _] => destruct b; lia
    end.
Qed.

(** ** Facts on binary64 rounding *)

(** The float constants are the doubles nearest to the decimal literals
    of the program. *)
Lemma float_literals_nearest :
  nearest 7205759403792794 (-56) 1 10
  /\ nearest 4611686018427388 (-62) 1 1000
  /\ nearest 8556839292003942 (-53) 95 100
  /\ nearest 5404319552844595 (-54) 3 10.
Proof. unfold nearest; repeat split; vm_compute; discriminate. Qed.

Lemma digits2_pos_bounds (p : positive) :
  2 ^ (Z.pos (digits2_pos p) - 1) <= Z.pos p < 2 ^ Z.pos (digits2_pos p).
Proof.
  induction p as [p IH|p IH|]; cbn [digits2_pos];
    [rewrite Pos2Z.inj_succ|rewrite Pos2Z.inj_succ|simpl; lia];
    replace (Z.succ (Z.pos (digits2_pos p)) - 1)
      with (Z.succ (Z.pos (digits2_pos p) - 1)) by lia;
    rewrite !Z.pow_succ_r by lia; lia.
Qed.

Lemma digits2_pos_unique (p : positive) (k : Z) :
  2 ^ (k - 1) <= Z.pos p < 2 ^ k -> Z.pos (digits2_pos p) = k.
Proof.
  intros [Hlo Hhi]; pose proof (digits2_pos_bounds p) as [Dlo Dhi].
  assert (0 < k).
  { destruct k as [|k|k];
      [simpl in Hhi; lia|lia|rewrite Z.pow_neg_r in Hhi by lia; lia]. }
  destruct (Z.lt_trichotomy (Z.pos (digits2_pos p)) k) as [Hlt|[Heq|Hgt]];
    [|assumption|].
  - assert (2 ^ Z.pos (digits2_pos p) <= 2 ^ (k - 1))
      by (apply Z.pow_le_mono_r; lia).
    lia.
  - assert (2 ^ k <= 2 ^ (Z.pos (digits2_pos p) - 1))
      by (apply Z.pow_le_mono_r; lia).
    lia.
Qed.

Lemma shr_1_m (mrs : shr_record) :
  0 <= shr_m mrs -> shr_m (shr_1 mrs) = shr_m mrs / 2.
Proof.
  destruct mrs as [m r s]; cbn [shr_m]; intros Hm.
  destruct m as [|[p|p|]|p]; cbn [shr_1 shr_m]; try lia.
  - reflexivity.
  - apply Z.div_unique with 1; lia.
  - apply Z.div_unique with 0; lia.
  - reflexivity.
Qed.

Lemma iter_pos_shr_m (n : positive) (mrs : shr_record) :
  0 <= shr_m mrs ->
  shr_m (iter_pos shr_1 n mrs) = shr_m mrs / 2 ^ Z.pos n.
Proof.
  revert mrs; induction n as [n IH|n IH|]; intros mrs Hm; cbn [iter_pos].
  - assert (H1 : 0 <= shr_m (shr_1 mrs))
      by (rewrite shr_1_m by assumption; apply Z.div_pos; lia).
    assert (H2 : 0 <= shr_m (iter_pos shr_1 n (shr_1 mrs)))
      by (rewrite IH by assumption; apply Z.div_pos; [|apply Z.pow_pos_nonneg]; lia).
    rewrite IH, IH, shr_1_m by assumption.
    rewrite !Z.div_div by (try apply Z.pow_pos_nonneg; lia).
    f_equal; replace (Z.pos n~1) with (1 + Z.pos n + Z.pos n) by lia.
    rewrite !Z.pow_add_r by lia; change (2 ^ 1) with 2; ring.
  - assert (H2 : 0 <= shr_m (iter_pos shr_1 n mrs))
      by (rewrite IH by assumption; apply Z.div_pos; [|apply Z.pow_pos_nonneg]; lia).
    rewrite IH, IH by assumption.
    rewrite !Z.div_div by (try apply Z.pow_pos_nonneg; lia).
    f_equal; replace (Z.pos n~0) with (Z.pos n + Z.pos n) by lia.
    rewrite Z.pow_add_r by lia; ring.
  - rewrite shr_1_m by assumption. reflexivity.
Qed.

Lemma round_nearest_even_bounds (q : Z) (l : location) :
  q <= round_nearest_even q l <= q + 1.
Proof.
  destruct l as [|[| |]]; cbn [round_nearest_even]; try lia.
  destruct (Z.even q); lia.
Qed.

Lemma shr_fexp_normal (m : positive) (e : Z) (l : location) :
  -1074 <= Z.pos (digits2_pos m) + e - 53 ->
  shr_fexp prec emax (Z.pos m) e l
  = shr (shr_record_of_loc (Z.pos m) l) e (Z.pos (digits2_pos m) - 53).
Proof.
  intros H; unfold shr_fexp, fexp, emin, Zdigits2, prec, emax.
  rewrite Z.max_l by lia; f_equal; lia.
Qed.

Lemma pow2_52 : 2 ^ 52 = 4503599627370496.
Proof. reflexivity. Qed.

Lemma pow2_53 : 2 ^ 53 = 9007199254740992.
Proof. reflexivity. Qed.

(** The second normalisation of [binary_round_aux]: a mantissa of 53 bits
    stays, the mantissa 2^53 becomes 2^52 with the next exponent. *)
Lemma shr_fexp_renormalise (m2 e' : Z) :
  2 ^ 52 <= m2 <= 2 ^ 53 -> -1074 <= e' ->
  exists m3 e3 r s,
    shr_fexp prec emax m2 e' loc_Exact
    = ({| shr_m := Z.pos m3; shr_r := r; shr_s := s |}, e3)
    /\ 2 ^ 52 <= Z.pos m3 < 2 ^ 53
    /\ ((e3 = e' /\ Z.pos m3 = m2) \/ e3 = e' + 1).
Proof.
  intros [Hlo Hhi] He.
  destruct m2 as [|p|p]; [rewrite pow2_52 in Hlo; lia| |lia].
  destruct (Z.eq_dec (Z.pos p) (2 ^ 53)) as [Heq|Hne].
  - rewrite pow2_53 in Heq; injection Heq as ->.
    rewrite shr_fexp_normal by (cbn [digits2_pos Pos.succ]; lia).
    exists 4503599627370496%positive, (e' + 1), false, false.
    split; [reflexivity|split; [rewrite pow2_52, pow2_53; lia|now right]].
  - assert (Hd : Z.pos (digits2_pos p) = 53)
      by (apply digits2_pos_unique; change (53 - 1) with 52; lia).
    rewrite shr_fexp_normal by lia; rewrite Hd.
    exists p, e', false, false.
    split; [reflexivity|split; [lia|left; split; reflexivity]].
Qed.

Lemma pow2_pos (k : Z) : 0 <= k -> 0 < 2 ^ k.
Proof. intros; apply Z.pow_pos_nonneg; lia. Qed.

Lemma exponent_at_least (m m0 : positive) (e e0 d : Z) :
  2 ^ 52 <= Z.pos m0 -> Z.pos m < 2 ^ d -> 0 <= d ->
  le_scaled m0 e0 m e -> e0 <= e + d - 53.
Proof.
  unfold le_scaled; intros Hm0 Hm Hd Hle.
  destruct (Z_le_gt_dec e0 (e + d - 53)) as [|Hgt]; [assumption|exfalso].
  set (k := Z.min e0 e) in *.
  assert (Hk0 : 0 <= e0 - k) by lia.
  assert (Hk : 0 <= e - k) by lia.
  pose proof (pow2_pos (e - k) Hk) as Hpe.
  pose proof (pow2_pos (e0 - k) Hk0) as Hpe0.
  assert (H1 : Z.pos m * 2 ^ (e - k) < 2 ^ d * 2 ^ (e - k))
    by (apply Z.mul_lt_mono_pos_r; assumption).
  rewrite <- Z.pow_add_r in H1 by lia.
  assert (H2 : 2 ^ (d + (e - k)) <= 2 ^ (52 + (e0 - k)))
    by (apply Z.pow_le_mono_r; lia).
  rewrite (Z.pow_add_r 2 52) in H2 by lia.
  assert (H3 : 2 ^ 52 * 2 ^ (e0 - k) <= Z.pos m0 * 2 ^ (e0 - k))
    by (apply Z.mul_le_mono_nonneg_r; lia).
  lia.
Qed.

Lemma binary_round_aux_at_least (m m0 : positive) (e e0 : Z) :
  2 ^ 52 <= Z.pos m -> 2 ^ 52 <= Z.pos m0 < 2 ^ 53 -> -1074 <= e0 ->
  le_scaled m0 e0 m e ->
  at_least m0 e0 (binary_round_aux prec emax false (Z.pos m) e loc_Exact).
Proof.
  intros Hm [Hm0 Hm0'] He0 Hle.
  pose proof (digits2_pos_bounds m) as [Dlo Dhi].
  set (d := Z.pos (digits2_pos m)) in *.
  assert (Hd : 53 <= d).
  { destruct (Z_le_gt_dec 53 d) as [|Hgt]; [assumption|exfalso].
    assert (2 ^ d <= 2 ^ 52) by (apply Z.pow_le_mono_r; lia). lia. }
  pose proof (exponent_at_least m m0 e e0 d Hm0 Dhi ltac:(lia) Hle) as Hexp.
  unfold binary_round_aux.
  rewrite shr_fexp_normal by (fold d; lia); fold d.
  destruct (d - 53) as [|n|n] eqn:Hn; [| |lia].
  - (* the mantissa has 53 bits already *)
    cbn [shr shr_record_of_loc shr_m loc_of_shr_record round_nearest_even].
    rewrite shr_fexp_normal by (fold d; lia); fold d; rewrite Hn.
    cbn [shr shr_record_of_loc shr_m].
    assert (d = 53) by lia.
    destruct (e <=? emax - prec); [|exact I].
    cbn [at_least]; split.
    + replace (d - 1) with 52 in Dlo by lia. replace d with 53 in Dhi by lia. lia.
    + destruct (Z.eq_dec e e0) as [->|Hne]; [right|left; lia].
      split; [reflexivity|].
      unfold le_scaled in Hle; rewrite Z.min_id, Z.sub_diag in Hle.
      change (2 ^ 0) with 1 in Hle; lia.
  - (* [n] bits are shifted out *)
    cbn [shr].
    set (mrs := iter_pos shr_1 n (shr_record_of_loc (Z.pos m) loc_Exact)).
    assert (Hq : shr_m mrs = Z.pos m / 2 ^ Z.pos n)
      by (unfold mrs; rewrite iter_pos_shr_m; cbn [shr_record_of_loc shr_m]; [reflexivity|lia]).
    pose proof (pow2_pos (Z.pos n) ltac:(lia)) as Hpn.
    assert (Hq52 : 2 ^ 52 <= shr_m mrs).
    { rewrite Hq; apply Z.div_le_lower_bound; [assumption|].
      rewrite <- Z.pow_add_r by lia.
      replace (Z.pos n + 52) with (d - 1) by lia; assumption. }
    assert (Hq53 : shr_m mrs < 2 ^ 53).
    { rewrite Hq; apply Z.div_lt_upper_bound; [assumption|].
      rewrite <- Z.pow_add_r by lia.
      replace (Z.pos n + 53) with d by lia; assumption. }
    pose proof (round_nearest_even_bounds (shr_m mrs) (loc_of_shr_record mrs))
      as [Rlo Rhi].
    destruct (shr_fexp_renormalise
                (round_nearest_even (shr_m mrs) (loc_of_shr_record mrs))
                (e + Z.pos n) ltac:(lia) ltac:(lia))
      as (m3 & e3 & r & s & Hshr & [M3lo M3hi] & He3).
    rewrite Hshr; cbn [shr_m].
    destruct (e3 <=? emax - prec); [|exact I].
    cbn [at_least]; split; [lia|].
    destruct He3 as [[-> Hm3]| ->]; [|left; lia].
    destruct (Z.eq_dec (e + Z.pos n) e0) as [Heq|Hne]; [right|left; lia].
    split; [assumption|].
    rewrite Hm3; apply Z.le_trans with (shr_m mrs); [|assumption].
    rewrite Hq; apply Z.div_le_lower_bound; [assumption|].
    unfold le_scaled in Hle.
    replace (Z.min e0 e) with e in Hle by lia.
    rewrite Z.sub_diag in Hle; change (2 ^ 0) with 1 in Hle.
    replace (e0 - e) with (Z.pos n) in Hle by lia. lia.
Qed.

Lemma pos_iter_xO (m d : positive) :
  Z.pos (Pos.iter xO m d) = Z.pos m * 2 ^ Z.pos d.
Proof.
  induction d as [|d IH] using Pos.peano_ind.
  - cbn [Pos.iter]; change (2 ^ 1) with 2; lia.
  - rewrite Pos.iter_succ, Pos2Z.inj_succ, Z.pow_succ_r by lia.
    change (Z.pos (Pos.iter xO m d)~0) with (2 * Z.pos (Pos.iter xO m d)).
    rewrite IH; ring.
Qed.

Lemma shl_align_down (m : positive) (e e' : Z) :
  e' <= e ->
  Z.pos (fst (shl_align m e e')) = Z.pos m * 2 ^ (e - e')
  /\ snd (shl_align m e e') = e'.
Proof.
  intros H; unfold shl_align.
  destruct (e' - e) as [|d|d] eqn:Hd; [|lia|]; cbn [fst snd].
  - replace (e - e') with 0 by lia; change (2 ^ 0) with 1; lia.
  - rewrite pos_iter_xO; replace (e - e') with (Z.pos d) by lia; lia.
Qed.

Lemma shl_align_up (m : positive) (e e' : Z) :
  e <= e' -> shl_align m e e' = (m, e).
Proof.
  intros H; unfold shl_align.
  destruct (e' - e) as [|d|d] eqn:Hd; [reflexivity|reflexivity|lia].
Qed.

Lemma binary_round_at_least (p m0 : positive) (e e0 : Z) :
  2 ^ 52 <= Z.pos m0 < 2 ^ 53 -> -1074 <= e0 ->
  le_scaled m0 e0 p e ->
  at_least m0 e0 (binary_round prec emax false p e).
Proof.
  intros [Hm0 Hm0'] He0 Hle.
  pose proof (digits2_pos_bounds p) as [Dlo Dhi].
  set (d := Z.pos (digits2_pos p)) in *.
  pose proof (exponent_at_least p m0 e e0 d Hm0 Dhi ltac:(lia) Hle) as Hexp.
  unfold binary_round, fexp, emin, prec, emax; fold d.
  rewrite Z.max_l by lia.
  destruct (Z_le_gt_dec e (d + e - 53)) as [Hup|Hdown].
  - rewrite shl_align_up by assumption.
    apply binary_round_aux_at_least; try assumption; [|lia].
    apply Z.le_trans with (2 ^ (d - 1)); [|assumption].
    apply Z.pow_le_mono_r; lia.
  - destruct (shl_align_down p e (d + e - 53) ltac:(lia)) as [Hfst Hsnd].
    destruct (shl_align p e (d + e - 53)) as [mz ez]; cbn [fst snd] in *.
    subst ez; replace (e - (d + e - 53)) with (53 - d) in Hfst by lia.
    pose proof (pow2_pos (53 - d) ltac:(lia)) as Hp.
    assert (Hmz : 2 ^ 52 <= Z.pos mz).
    { rewrite Hfst; replace 52 with ((d - 1) + (53 - d)) at 1 by lia.
      rewrite Z.pow_add_r by lia; apply Z.mul_le_mono_nonneg_r; lia. }
    apply binary_round_aux_at_least; try assumption; [lia|].
    unfold le_scaled in *.
    replace (Z.min e0 (d + e - 53)) with e0 by lia.
    replace (Z.min e0 e) with e0 in Hle by lia.
    rewrite Hfst, <- Z.mul_assoc, <- Z.pow_add_r by lia.
    replace (53 - d + (d + e - 53 - e0)) with (e - e0) by lia; assumption.
Qed.

Lemma of_int_at_least (z : Z) :
  1 <= z -> at_least one_m (-52) (of_int z).
Proof.
  intros Hz; destruct z as [|p|p]; try lia.
  unfold of_int; cbn [binary_normalize].
  apply binary_round_at_least; [rewrite pow2_52, pow2_53; unfold one_m; lia|lia|].
  unfold le_scaled; change (Z.min (-52) 0) with (-52).
  change (-52 - -52) with 0; change (0 - -52) with 52.
  change (2 ^ 0) with 1; rewrite pow2_52; unfold one_m; lia.
Qed.

Lemma fmul_at_least (x : float) (m0 : positive) (e0 : Z) :
  at_least one_m (-52) x ->
  2 ^ 52 <= Z.pos m0 < 2 ^ 53 -> -1074 <= e0 ->
  at_least m0 e0 (fmul x (S754_finite false m0 e0)).
Proof.
  intros Hx Hm0 He0.
  float_cases x m e; try contradiction; [exact I|].
  destruct Hx as [[Hm Hm'] He].
  assert (He' : -52 <= e) by lia; clear He.
  unfold fmul; cbn [SFmul xorb].
  apply binary_round_aux_at_least; try assumption.
  - rewrite Pos2Z.inj_mul; nia.
  - unfold le_scaled; rewrite Pos2Z.inj_mul.
    destruct (Z_le_gt_dec 0 e) as [Hpos|Hneg].
    + replace (Z.min e0 (e + e0)) with e0 by lia.
      rewrite Z.sub_diag; change (2 ^ 0) with 1.
      pose proof (pow2_pos (e + e0 - e0) ltac:(lia)); nia.
    + replace (Z.min e0 (e + e0)) with (e + e0) by lia.
      rewrite Z.sub_diag; change (2 ^ 0) with 1.
      replace (e0 - (e + e0)) with (- e) by lia.
      assert (2 ^ (- e) <= 2 ^ 52) by (apply Z.pow_le_mono_r; lia).
      nia.
Qed.

Lemma at_least_nonneg (m0 : positive) (e0 : Z) (x : float) :
  at_least m0 e0 x -> nonneg x.
Proof. float_cases x m e; simpl; tauto. Qed.

Lemma fadd_at_least (a b : float) (m0 : positive) (e0 : Z) :
  nonneg a -> at_least m0 e0 b ->
  2 ^ 52 <= Z.pos m0 < 2 ^ 53 -> -1074 <= e0 ->
  at_least m0 e0 (fadd a b).
Proof.
  intros Ha Hb [Hm0 Hm0'] He0.
  float_cases b mb eb; try contradiction;
    float_cases a ma ea; try contradiction;
    try exact I; try exact Hb.
  destruct Hb as [[Hmb Hmb'] Hb].
  unfold fadd; cbn [SFadd cond_Zopp].
  set (ez := Z.min ea eb).
  destruct (shl_align_down ma ea ez ltac:(lia)) as [Hfa _].
  destruct (shl_align_down mb eb ez ltac:(lia)) as [Hfb _].
  set (ma' := fst (shl_align ma ea ez)) in *.
  set (mb' := fst (shl_align mb eb ez)) in *.
  change (Z.pos ma' + Z.pos mb') with (Z.pos (ma' + mb')).
  cbn [binary_normalize].
  apply binary_round_at_least; [lia|lia|].
  unfold le_scaled; rewrite Pos2Z.inj_add, Hfb.
  set (k := Z.min e0 ez).
  pose proof (pow2_pos (ez - k) ltac:(lia)) as Hp1.
  pose proof (pow2_pos (e0 - k) ltac:(lia)) as Hp2.
  apply Z.le_trans with (Z.pos mb * 2 ^ (eb - ez) * 2 ^ (ez - k)); [|nia].
  rewrite <- Z.mul_assoc, <- Z.pow_add_r by lia.
  replace (eb - ez + (ez - k)) with (eb - k) by lia.
  destruct Hb as [Hlt|[-> Hle]].
  - replace (eb - k) with ((e0 - k) + (eb - e0)) by lia.
    rewrite Z.pow_add_r by lia.
    assert (2 ^ 1 <= 2 ^ (eb - e0)) by (apply Z.pow_le_mono_r; lia).
    change (2 ^ 1) with 2 in *.
    replace (2 ^ 53) with (2 * 2 ^ 52) in Hm0' by reflexivity.
    assert (Z.pos m0 <= Z.pos mb * 2 ^ (eb - e0)) by nia.
    rewrite (Z.mul_comm (2 ^ (e0 - k))), Z.mul_assoc.
    apply Z.mul_le_mono_nonneg_r; lia.
  - apply Z.mul_le_mono_nonneg_r; lia.
Qed.

(** ** Facts on dicts *)

Lemma fold_add_shift (xs : list Z) (a : Z) :
  fold_left Z.add xs a = a + fold_left Z.add xs 0.
Proof.
  revert a; induction xs as [|x xs IH]; intros a; simpl; [lia|].
  rewrite (IH (a + x)), (IH x); lia.
Qed.

Lemma sum_cons (x : Z) (xs : list Z) : Py.sum (x :: xs) = x + Py.sum xs.
Proof. unfold Py.sum; simpl; apply fold_add_shift. Qed.

Lemma getitem_in (d : dict) (k : string) :
  In k (keys d) -> exists v, getitem d k = Ok v.
Proof.
  induction d as [|[k' v'] d IH]; simpl; [contradiction|].
  intros [->|Hin].
  - rewrite String.eqb_refl; eauto.
  - destruct (String.eqb k' k); eauto.
Qed.

Lemma getitem_not_in (d : dict) (k : string) :
  ~ In k (keys d) -> getitem d k = Raise (KeyError k).
Proof.
  induction d as [|[k' v'] d IH]; simpl; [reflexivity|].
  intros Hnot; destruct (String.eqb_spec k' k) as [->|_].
  - exfalso; apply Hnot; now left.
  - apply IH; intros Hin; apply Hnot; now right.
Qed.

Lemma setitem_keys (d : dict) (k : string) (v w : Z) :
  getitem d k = Ok v -> keys (setitem d k w) = keys d.
Proof.
  induction d as [|[k' v'] d IH]; simpl; [discriminate|].
  destruct (String.eqb k' k); simpl; [reflexivity|].
  intros H; now rewrite IH.
Qed.

Lemma setitem_sum (d : dict) (k : string) (v w : Z) :
  getitem d k = Ok v ->
  Py.sum (values (setitem d k w)) = Py.sum (values d) - v + w.
Proof.
  unfold values; induction d as [|[k' v'] d IH]; simpl; [discriminate|].
  destruct (String.eqb k' k); simpl.
  - intros [= ->]; rewrite !sum_cons; lia.
  - intros H; rewrite !sum_cons, (IH H); lia.
Qed.

Lemma setitem_bucket (d : dict) (k k' : string) (v w : Z) :
  getitem d k = Ok v ->
  bucket (setitem d k w) k' = if String.eqb k k' then w else bucket d k'.
Proof.
  unfold bucket; induction d as [|[k0 v0] d IH]; simpl; [discriminate|].
  destruct (String.eqb_spec k0 k) as [->|Hne]; simpl.
  - intros _; destruct (String.eqb k k'); reflexivity.
  - intros H; destruct (String.eqb_spec k0 k') as [->|Hne'].
    + destruct (String.eqb_spec k k'); [congruence|reflexivity].
    + now apply IH.
Qed.

(** [d[k] += n] on a key of [d]: the keys stay, the bucket and the sum
    grow by [n]. *)
Lemma iadd_item_in (d : dict) (k : string) (n : Z) :
  In k (keys d) ->
  exists d', iadd_item d k n = Ok d'
    /\ keys d' = keys d
    /\ Py.sum (values d') = Py.sum (values d) + n
    /\ forall k', bucket d' k' = bucket d k' + (if String.eqb k k' then n else 0).
Proof.
  intros Hin; destruct (getitem_in d k Hin) as [v Hv].
  unfold iadd_item; rewrite Hv; simpl.
  exists (setitem d k (v + n)); repeat split.
  - eapply setitem_keys; eassumption.
  - rewrite (setitem_sum d k v) by assumption; lia.
  - intros k'; rewrite (setitem_bucket d k k' v) by assumption.
    destruct (String.eqb_spec k k') as [<-|_]; [|lia].
    unfold bucket; rewrite Hv; lia.
Qed.

Lemma iadd_item_not_in (d : dict) (k : string) (n : Z) :
  ~ In k (keys d) -> iadd_item d k n = Raise (KeyError k).
Proof.
  intros Hnot; unfold iadd_item; now rewrite getitem_not_in.
Qed.

Lemma valid_severity_in (s : string) :
  valid_severity s = true <-> In s severities.
Proof.
  unfold valid_severity; rewrite existsb_exists; split.
  - intros [k [Hin Heq]]; apply String.eqb_eq in Heq; now subst.
  - intros Hin; exists s; split; [assumption|apply String.eqb_refl].
Qed.

(** ** The severity aggregator *)

Lemma tally_cons (s : string) (b : Bug) (bugs : list Bug) :
  tally s (b :: bugs)
  = (if String.eqb (severity b) s then 1 else 0) + tally s bugs.
Proof.
  unfold tally; cbn [filter]; destruct (String.eqb (severity b) s);
    cbn [List.length]; rewrite ?Nat2Z.inj_succ; lia.
Qed.

(** When every severity is canonical the fold succeeds, keeps the four
    keys and counts each finding once. *)
Lemma calculate_severity_valid (bugs : list Bug) (d : dict) :
  keys d = severities ->
  forallb (fun b => valid_severity (severity b)) bugs = true ->
  exists d', for_each count_severity bugs d = Ok d'
    /\ keys d' = severities
    /\ Py.sum (values d') = Py.sum (values d) + Z.of_nat (List.length bugs)
    /\ forall k, bucket d' k = bucket d k + tally k bugs.
Proof.
  revert d; induction bugs as [|b bugs IH]; intros d Hkeys Hall.
  - exists d; simpl; repeat split; try assumption; try lia.
    intros k; unfold tally; simpl; lia.
  - simpl in Hall; apply andb_prop in Hall as [Hb Hall].
    apply valid_severity_in in Hb; rewrite <- Hkeys in Hb.
    destruct (iadd_item_in d (severity b) 1 Hb) as (d1 & H1 & Hk1 & Hs1 & Hb1).
    destruct (IH d1) as (d' & H' & Hk' & Hs' & Hb'); [congruence|assumption|].
    exists d'; cbn [for_each]; unfold count_severity at 1; rewrite H1.
    cbn [bind]; repeat split; try assumption.
    + cbn [List.length]; rewrite Hs', Hs1, Nat2Z.inj_succ; lia.
    + intros k; rewrite Hb', Hb1, tally_cons; lia.
Qed.

(** The fold raises [KeyError] at the first finding whose severity is not
    canonical. *)
Lemma calculate_severity_invalid (bugs : list Bug) (d : dict) :
  keys d = severities ->
  forallb (fun b => valid_severity (severity b)) bugs = false ->
  exists b, In b bugs /\ valid_severity (severity b) = false
    /\ for_each count_severity bugs d = Raise (KeyError (severity b)).
Proof.
  revert d; induction bugs as [|b bugs IH]; intros d Hkeys Hall;
    [discriminate|].
  simpl in Hall; destruct (valid_severity (severity b)) eqn:Hb.
  - simpl in Hall; apply valid_severity_in in Hb; rewrite <- Hkeys in Hb.
    destruct (iadd_item_in d (severity b) 1 Hb) as (d1 & H1 & Hk1 & _).
    destruct (IH d1) as (b' & Hin & Hv & Hr); [congruence|assumption|].
    exists b'; repeat split; [now right|assumption|].
    cbn [for_each]; unfold count_severity at 1; now rewrite H1.
  - exists b; repeat split; [now left|assumption|].
    cbn [for_each]; unfold count_severity at 1.
    rewrite iadd_item_not_in; [reflexivity|].
    rewrite Hkeys; intros Hin; apply valid_severity_in in Hin; congruence.
Qed.

(** C8. The severity aggregation succeeds exactly when every finding
    carries one of the severities critical, high, medium, low; otherwise
    it raises [KeyError] on a severity outside that set, and no count is
    returned. *)
Theorem calculate_severity_fails_outside_enum (bugs : list Bug) :
  is_ok (_calculate_severity bugs)
  = forallb (fun b => valid_severity (severity b)) bugs
  /\ match _calculate_severity bugs with
     | Ok severity_count => keys severity_count = severities
     | Raise e =>
         exists b, In b bugs /\ valid_severity (severity b) = false
                   /\ e = KeyError (severity b)
     end.
Proof.
  unfold _calculate_severity.
  destruct (forallb (fun b => valid_severity (severity b)) bugs) eqn:Hall.
  - destruct (calculate_severity_valid bugs severity_count_init eq_refl Hall)
      as (d' & H' & Hk' & _).
    rewrite H'; split; [reflexivity|assumption].
  - destruct (calculate_severity_invalid bugs severity_count_init eq_refl Hall)
      as (b & Hin & Hv & Hr).
    rewrite Hr; split; [reflexivity|].
    exists b; repeat split; assumption.
Qed.

(** ** The line matcher *)

Lemma check_pattern_fold (i : Z) (text : string) (rules : list PatternInfo)
  (bugs : list Bug) :
  fold_left (check_pattern i text) rules bugs
  = (bugs ++ map (finding i text)
               (filter (fun rule => search true (pattern rule) text) rules))%list.
Proof.
  revert bugs; induction rules as [|rule rules IH]; intros bugs;
    cbn [fold_left filter].
  - now rewrite app_nil_r.
  - rewrite IH; unfold check_pattern.
    destruct (search true (pattern rule) text); cbn [map]; [|reflexivity].
    now rewrite <- app_assoc.
Qed.

Lemma detect_lines_fold (lines : list (Z * string)) (bugs : list Bug) :
  fold_left
    (fun bugs '(i, text) => fold_left (check_pattern i text) bug_patterns bugs)
    lines bugs
  = (bugs ++ flat_map (fun '(i, text) => findings_of_line i text) lines)%list.
Proof.
  revert bugs; induction lines as [|[i text] lines IH]; intros bugs;
    cbn [fold_left flat_map].
  - now rewrite app_nil_r.
  - rewrite IH, check_pattern_fold, <- app_assoc; reflexivity.
Qed.

Lemma detect_pattern_bugs_spec (code : string) :
  detect_pattern_bugs code = line_then_rule code.
Proof. unfold detect_pattern_bugs; now rewrite detect_lines_fold. Qed.

Lemma findings_of_line_lines (i : Z) (text : string) :
  Forall (fun b => line b = i) (findings_of_line i text).
Proof.
  unfold findings_of_line; apply Forall_forall; intros b Hin.
  apply in_map_iff in Hin as (rule & <- & _); reflexivity.
Qed.

(** From line [start] on, the findings carry ascending line numbers, none
    below [start]. *)
Lemma flat_map_lines_sorted (lines : list string) (start : Z) :
  let bugs := flat_map (fun '(i, text) => findings_of_line i text)
                       (enumerate start lines) in
  StronglySorted Z.le (map line bugs) /\ Forall (fun n => start <= n) (map line bugs).
Proof.
  revert start; induction lines as [|text lines IH]; intros start; simpl.
  - split; constructor.
  - destruct (IH (start + 1)) as [Hsorted Hge]; clear IH.
    pose proof (findings_of_line_lines start text) as Hhere.
    induction Hhere as [|b here Hb Hhere IHhere]; simpl.
    + split; [assumption|].
      eapply Forall_impl; [|exact Hge]; simpl; intros; lia.
    + destruct IHhere as [Hs Hf]; split.
      * constructor; [assumption|].
        rewrite Hb; exact Hf.
      * constructor; [lia|assumption].
Qed.

Lemma rule_severities_valid :
  forallb (fun rule => valid_severity (pattern_severity rule)) bug_patterns
  = true.
Proof. reflexivity. Qed.

Lemma findings_valid (code : string) :
  forallb (fun b => valid_severity (severity b)) (detect_pattern_bugs code)
  = true.
Proof.
  rewrite detect_pattern_bugs_spec; apply forallb_forall; intros b Hin.
  unfold line_then_rule in Hin; apply in_flat_map in Hin as ([i text] & _ & Hin).
  unfold findings_of_line in Hin; apply in_map_iff in Hin as (rule & <- & Hin).
  apply filter_In in Hin as [Hin _].
  pose proof rule_severities_valid as Hall.
  rewrite forallb_forall in Hall; exact (Hall rule Hin).
Qed.

Lemma bucket_init (s : string) : bucket severity_count_init s = 0.
Proof.
  unfold bucket, severity_count_init; cbn [getitem].
  repeat match goal with |- context [String.eqb ?a ?b] => destruct (String.eqb a b) end;
    reflexivity.
Qed.

(** [predict] returns on every text, with the breakdown of its findings. *)
Lemma predict_returns (code : string) :
  exists breakdown,
    predict code
    = Ok {| has_bugs :=
              flt f0_3 (bug_probability_of (extract_features code))
              || (Z.of_nat (List.length (detect_pattern_bugs code)) >? 0);
            confidence := bug_probability_of (extract_features code);
            bugs_found := detect_pattern_bugs code;
            total_issues := Z.of_nat (List.length (detect_pattern_bugs code));
            severity_breakdown := breakdown |}
    /\ keys breakdown = severities
    /\ Py.sum (values breakdown) = Z.of_nat (List.length (detect_pattern_bugs code))
    /\ forall s, bucket breakdown s = tally s (detect_pattern_bugs code).
Proof.
  destruct (calculate_severity_valid (detect_pattern_bugs code)
              severity_count_init eq_refl (findings_valid code))
    as (d & Hd & Hkeys & Hsum & Hbucket).
  exists d; unfold predict, _calculate_severity; rewrite Hd; cbn [bind].
  split; [reflexivity|]; split; [assumption|]; split.
  - rewrite Hsum; reflexivity.
  - intros s; rewrite Hbucket, bucket_init; lia.
Qed.

(** ** The tests of the repository on the model *)

Example test_severity_calculation :
  let bug s := {| line := 0; severity := s; message := ""; code := "";
                  type := "" |} in
  _calculate_severity
    [bug "critical"; bug "critical"; bug "high"; bug "medium"; bug "low"]
  = Ok [("critical", 2); ("high", 1); ("medium", 1); ("low", 1)].
Proof. reflexivity. Qed.

Example test_detect_eval_usage :
  map (fun b => (line b, severity b, code b))
      (detect_pattern_bugs "
user_input = get_input()
result = eval(user_input)
        ")
  = [(3, "critical", "result = eval(user_input)")].
Proof. vm_compute; reflexivity. Qed.

Example test_detect_bare_except :
  map (fun b => (line b, severity b, message b))
      (detect_pattern_bugs "
try:
    risky_operation()
except:
    pass
        ")
  = [(4, "high", "Bare except clause - specify exception type")].
Proof. vm_compute; reflexivity. Qed.

Example test_parametrized_detection :
  map (fun text => option_map has_bugs
                     (match predict text with Ok r => Some r | Raise _ => None end))
      ["if x == None: pass"; "if x is None: pass"; "var x = 10;"; "const x = 10;"]
  = [Some true; Some false; Some true; Some false].
Proof. vm_compute; reflexivity. Qed.

(** The buggy samples of [train.py], with the severities found on each. *)
Example train_buggy_samples :
  map (fun text => map (fun b => (line b, severity b)) (detect_pattern_bugs text))
      ["if x == None: pass";
       "try:
    risky_operation()
except:
    pass";
       "password = 'hardcoded123'";
       "eval(user_input)";
       "api_key = 'sk-1234567890'";
       "element.innerHTML = user_data";
       "var x = 10; // TODO: fix this";
       "console.log('debug info')";
       "exec(malicious_code)";
       "if condition == True:"]
  = [[(1, "medium")]; [(3, "high")]; [(1, "critical")]; [(1, "critical")];
     [(1, "critical")]; [(1, "high")]; [(1, "low"); (1, "medium")];
     [(1, "low")]; [(1, "critical")]; []].
Proof. vm_compute; reflexivity. Qed.

(** The clean samples of [train.py] give no finding. *)
Example train_clean_samples :
  map detect_pattern_bugs
      ["if x is None: pass";
       "password = os.getenv('PASSWORD')";
       "result = safe_parse(user_input)";
       "api_key = os.getenv('API_KEY')";
       "element.textContent = sanitize(user_data)";
       "const x = 10;";
       "logger.debug('debug info')";
       "result = safe_execute(code)";
       "if condition:"]
  = [[]; []; []; []; []; []; []; []; []].
Proof. vm_compute; reflexivity. Qed.

Example test_feature_extraction :
  extract_features "
def complex_function():
    if condition1:
        for i in range(10):
            if condition2:
                try:
                    process()
                except Exception:
                    pass
        "
  = [10; 2; 1; 1; 2; 0; 0; 0; 0; 0].
Proof. vm_compute; reflexivity. Qed.

(** ** The claims on one text *)

(** Every text is analysed by [predict], with a well-formed result. *)
Lemma predict_analysed (p text : string) :
  exists r, analysed_by predict (p, text, r).
Proof.
  destruct (predict_returns text) as (d & Hr & Hkeys & _).
  eexists; split; [exact Hr|exact Hkeys].
Qed.

(** C1, as amended.  For the empty text [predict] raises nothing and
    returns no finding, [total_issues] 0, [has_bugs] false and the
    confidence 0.001: the empty text has one (empty) line. *)
Theorem predict_empty_blob :
  predict ""
  = Ok {| has_bugs := false;
          confidence := f0_001;
          bugs_found := [];
          total_issues := 0;
          severity_breakdown :=
            [("critical", 0); ("high", 0); ("medium", 0); ("low", 0)] |}.
Proof. vm_compute; reflexivity. Qed.

(** C1, as stated, fails: the confidence of the empty text is not 0.0. *)
Lemma predict_empty_blob_confidence_not_zero :
  ~ (exists r, predict "" = Ok r
               /\ total_issues r = 0
               /\ feq (confidence r) f0_0 = true
               /\ has_bugs r = false).
Proof.
  intros (r & Hr & _ & Hzero & _).
  vm_compute in Hr; injection Hr as <-.
  vm_compute in Hzero; discriminate.
Qed.

(** C2. On every text the result of [predict] has
    [has_bugs == (confidence > 0.3 or total_issues > 0)]. *)
Theorem predict_has_bugs_invariant (code : string) :
  exists r, predict code = Ok r
    /\ has_bugs r = (flt f0_3 (confidence r) || (total_issues r >? 0)).
Proof.
  destruct (predict_returns code) as (d & Hr & _).
  eexists; split; [exact Hr|reflexivity].
Qed.

(** C3. On every text the result of [predict] has [total_issues] equal to
    the sum of the counts of its breakdown; the breakdown has exactly the
    keys critical, high, medium, low, each holding the number of findings
    of that severity (0 when there is none). *)
Theorem predict_total_issues_is_breakdown_sum (code : string) :
  exists r, predict code = Ok r
    /\ total_issues r = Py.sum (values (severity_breakdown r))
    /\ keys (severity_breakdown r) = ["critical"; "high"; "medium"; "low"]
    /\ forall s, bucket (severity_breakdown r) s = tally s (bugs_found r).
Proof.
  destruct (predict_returns code) as (d & Hr & Hkeys & Hsum & Hbucket).
  eexists; split; [exact Hr|]; cbn [total_issues severity_breakdown bugs_found].
  repeat split; [now rewrite Hsum|assumption|assumption].
Qed.

(** C4. The findings of a text come in line-then-rule order: the lines in
    ascending order from 1, each line with one finding for every rule
    that matches it, in the order of the rule table; the line numbers
    never decrease.  The line with a password literal and an API key
    literal gives the two findings of these rules on line 1. *)
Theorem detect_pattern_bugs_line_then_rule (code : string) :
  detect_pattern_bugs code
  = flat_map (fun '(i, text) =>
                map (finding i text)
                    (filter (fun rule => search true (pattern rule) text)
                            bug_patterns))
             (enumerate 1 (split LF code))
  /\ StronglySorted Z.le (map line (detect_pattern_bugs code))
  /\ map (fun b => (line b, message b)) (detect_pattern_bugs two_secrets)
     = [(1, "Hardcoded password detected - security risk");
        (1, "Hardcoded API key detected - security risk")]
  /\ (2 <= List.length (filter (fun b => (line b =? 1)%Z)
                               (detect_pattern_bugs two_secrets)))%nat.
Proof.
  split; [apply detect_pattern_bugs_spec|split].
  - rewrite detect_pattern_bugs_spec.
    apply (flat_map_lines_sorted (split LF code) 1).
  - split; vm_compute; [reflexivity|lia].
Qed.

(** C9. The text [if x == None: pass] gives exactly one finding, of
    medium severity, from the null-comparison rule; on
    [if x is None: pass] that rule does not match, and no finding is
    given. *)
Theorem null_comparison_examples :
  detect_pattern_bugs null_comparison
  = [ {| line := 1;
         severity := "medium";
         message := "Use " ++ dquote ++ "is None" ++ dquote ++ " instead of "
                    ++ dquote ++ "== None" ++ dquote;
         code := "if x == None: pass";
         type := "pattern" |} ]
  /\ map pattern_message
         (filter (fun rule => search true (pattern rule) null_comparison)
                 bug_patterns)
     = map pattern_message (firstn 1 bug_patterns)
  /\ search true (Cat [Str "=="; Star Space; Str "None"]) identity_test = false
  /\ detect_pattern_bugs identity_test = [].
Proof. repeat split; vm_compute; reflexivity. Qed.

(** ** The project aggregator *)

Lemma dict_of_severities (d : dict) :
  keys d = severities ->
  exists c h m l,
    d = [("critical", c); ("high", h); ("medium", m); ("low", l)].
Proof.
  unfold keys, severities; intros H.
  destruct d as [|[k1 c] [|[k2 h] [|[k3 m] [|[k4 l] [|]]]]]; try discriminate.
  simpl in H; injection H as -> -> -> ->; eauto.
Qed.

(** Adding a well-formed breakdown to the summary raises nothing, keeps
    the four keys and adds bucket by bucket. *)
Lemma aggregate_severity_well_formed (items breakdown : dict) :
  keys items = severities -> keys breakdown = severities ->
  exists breakdown',
    ScanProject.aggregate_severity items breakdown = (breakdown', None)
    /\ keys breakdown' = severities
    /\ forall s, bucket breakdown' s = bucket breakdown s + bucket items s.
Proof.
  intros Hi Hb.
  destruct (dict_of_severities items Hi) as (c & h & m & l & ->).
  destruct (dict_of_severities breakdown Hb) as (c' & h' & m' & l' & ->).
  exists [("critical", c' + c); ("high", h' + h); ("medium", m' + m);
          ("low", l' + l)].
  split; [reflexivity|split; [reflexivity|]].
  intros s; unfold bucket; cbn [getitem].
  repeat match goal with
         | |- context [String.eqb ?a s] => destruct (String.eqb a s)
         end; lia.
Qed.

Section ScanFacts.

Variable analyse : string -> exc Result.

Lemma scan_file_failing (st : ScanProject.AllResults)
  (f : ScanProject.SourceFile) :
  fails analyse f = true -> ScanProject.scan_file analyse st f = st.
Proof.
  destruct f as [p [text|e]]; unfold fails; simpl; [|reflexivity].
  destruct (analyse text); simpl; [discriminate|reflexivity].
Qed.

Lemma scan_fold_skips (fs : list ScanProject.SourceFile)
  (st : ScanProject.AllResults) :
  fold_left (ScanProject.scan_file analyse) fs st
  = fold_left (ScanProject.scan_file analyse)
      (filter (fun f => negb (fails analyse f)) fs) st.
Proof.
  revert st; induction fs as [|f fs IH]; intros st; [reflexivity|].
  cbn [fold_left filter]; destruct (fails analyse f) eqn:Hf; cbn [negb].
  - rewrite scan_file_failing by assumption; apply IH.
  - cbn [fold_left]; apply IH.
Qed.

(** One scanned file adds its values to the summary and its entry to
    the end of the per-file sequence. *)
Lemma scan_file_analysed (st : ScanProject.AllResults) (x : Scanned) :
  analysed_by analyse x ->
  keys (ScanProject.severity_breakdown st) = severities ->
  let st' := ScanProject.scan_file analyse st (source_of x) in
  ScanProject.total_files st' = ScanProject.total_files st + 1
  /\ ScanProject.files_with_bugs st'
     = ScanProject.files_with_bugs st
       + (if has_bugs (result_of x) then 1 else 0)
  /\ ScanProject.total_issues st'
     = ScanProject.total_issues st + total_issues (result_of x)
  /\ keys (ScanProject.severity_breakdown st') = severities
  /\ (forall s, bucket (ScanProject.severity_breakdown st') s
                = bucket (ScanProject.severity_breakdown st) s
                  + bucket (severity_breakdown (result_of x)) s)
  /\ ScanProject.files st'
     = (ScanProject.files st ++ [per_file (fst (fst x)) (result_of x)])%list
  /\ ScanProject.confidence st' = ScanProject.confidence st.
Proof.
  destruct x as [[p text] r]; intros [Hr Hwf] Hkeys.
  destruct (aggregate_severity_well_formed (severity_breakdown r)
              (ScanProject.severity_breakdown st) Hwf Hkeys)
    as (d & Hd & Hk & Hb).
  unfold ScanProject.scan_file, source_of, result_of; cbn [fst snd].
  rewrite Hr, Hd; cbn.
  repeat split; try assumption; try reflexivity.
  destruct (has_bugs r); lia.
Qed.

End ScanFacts.

(** ** The confidence scorer *)

Lemma at_least_fle (m0 : positive) (e0 : Z) (x : float) :
  at_least m0 e0 x -> fle (S754_finite false m0 e0) x = true.
Proof.
  float_cases x m e; try contradiction; [reflexivity|].
  intros [_ Hx]; unfold fle, SFleb; cbn [SFcompare].
  destruct Hx as [Hlt|[-> Hle]].
  - apply Z.compare_lt_iff in Hlt; now rewrite Hlt.
  - rewrite Z.compare_refl.
    change (Pos.compare_cont Eq m0 m) with (Pos.compare m0 m).
    destruct (Pos.compare_spec m0 m); [reflexivity|reflexivity|lia].
Qed.

Lemma at_least_positive (m0 : positive) (e0 : Z) (x : float) :
  at_least m0 e0 x -> flt f0_0 x = true /\ feq x f0_0 = false.
Proof.
  float_cases x m e; try contradiction; split; reflexivity.
Qed.

Lemma flt_fle (x y : float) : flt x y = true -> fle x y = true.
Proof.
  unfold flt, fle, SFltb, SFleb.
  destruct (SFcompare x y) as [[| |]|]; congruence.
Qed.

Lemma below_0_95_not_one (x : float) :
  flt x f0_95 = true -> feq x f1_0 = false.
Proof.
  unfold flt, feq, SFltb, SFeqb, f0_95, f1_0.
  float_cases x m e; cbn [SFcompare]; try reflexivity.
  destruct (Z.compare_spec e (-53)); destruct (Z.compare_spec e (-52));
    try lia; try reflexivity; discriminate.
Qed.

(** The sum under the [min]: at least 0.001 as soon as there is a line
    and the complexity is not negative. *)
Lemma weighted_sum_at_least (complexity_score line_count : Z) :
  0 <= complexity_score -> 1 <= line_count ->
  at_least 4611686018427388 (-62)
    (fadd (fmul (of_int complexity_score) f0_1)
          (fmul (of_int line_count) f0_001)).
Proof.
  intros Hc Hl.
  apply fadd_at_least; [| |rewrite pow2_52, pow2_53; lia|lia].
  - destruct (Z.eq_dec complexity_score 0) as [->|Hne]; [exact I|].
    apply at_least_nonneg with 7205759403792794%positive (-56).
    apply fmul_at_least;
      [apply of_int_at_least; lia|rewrite pow2_52, pow2_53; lia|lia].
  - apply fmul_at_least;
      [apply of_int_at_least; lia|rewrite pow2_52, pow2_53; lia|lia].
Qed.

Lemma min_0_95_bounds (x : float) :
  at_least 4611686018427388 (-62) x ->
  flt f0_0 (Py.min f0_95 x) = true
  /\ fle f0_001 (Py.min f0_95 x) = true
  /\ fle (Py.min f0_95 x) f0_95 = true
  /\ feq (Py.min f0_95 x) f0_0 = false
  /\ feq (Py.min f0_95 x) f1_0 = false.
Proof.
  intros Hx; unfold Py.min; destruct (flt x f0_95) eqn:Hlt.
  - destruct (at_least_positive _ _ _ Hx) as [Hpos Hnz].
    repeat split; try assumption.
    + exact (at_least_fle _ _ _ Hx).
    + now apply flt_fle.
    + now apply below_0_95_not_one.
  - repeat split; reflexivity.
Qed.

Lemma min_le_left (a x : float) : fle a a = true -> fle (Py.min a x) a = true.
Proof.
  intros Ha; unfold Py.min; destruct (flt x a) eqn:Hlt;
    [now apply flt_fle|assumption].
Qed.

Lemma features_nonneg (code : string) :
  0 <= complexity_score_of (extract_features code)
  /\ 1 <= line_count_of (extract_features code).
Proof.
  unfold complexity_score_of, line_count_of, extract_features; cbn [nth].
  pose proof (count_nonneg code "if"); pose proof (count_nonneg code "for").
  pose proof (count_nonneg code "while").
  pose proof (split_length_pos LF code); lia.
Qed.

(** C5. The confidence of a result is
    [min(0.95, complexity_score * 0.1 + line_count * 0.001)], the
    complexity score being the count of [if] plus the count of the loop
    keywords [for] and [while], and the line count the number of lines:
    three entries of the feature vector and nothing of the findings.  It
    is never above 0.95, and neither is the score of any three counts
    whatever their magnitude. *)
Theorem predict_confidence_formula (code : string) :
  exists r, predict code = Ok r
    /\ confidence r
       = scorer (nth 1 (extract_features code) 0)
                (nth 2 (extract_features code) 0)
                (nth 0 (extract_features code) 0)
    /\ nth 1 (extract_features code) 0 = count code "if"
    /\ nth 2 (extract_features code) 0 = count code "for" + count code "while"
    /\ nth 0 (extract_features code) 0
       = Z.of_nat (List.length (split LF code))
    /\ fle (confidence r) f0_95 = true
    /\ forall conditional_count loop_count line_count,
         fle (scorer conditional_count loop_count line_count) f0_95 = true.
Proof.
  destruct (predict_returns code) as (d & Hr & _).
  eexists; split; [exact Hr|]; cbn [confidence].
  repeat split; intros; apply min_le_left; reflexivity.
Qed.

(** C10. On every text, the empty one included, the confidence is
    strictly positive, at least 0.001 (a text has at least one line) and
    at most 0.95; it is never 0.0 and never 1.0. *)
Theorem predict_confidence_range (code : string) :
  exists r, predict code = Ok r
    /\ 1 <= Z.of_nat (List.length (split LF code))
    /\ flt f0_0 (confidence r) = true
    /\ fle f0_001 (confidence r) = true
    /\ fle (confidence r) f0_95 = true
    /\ feq (confidence r) f0_0 = false
    /\ feq (confidence r) f1_0 = false.
Proof.
  destruct (predict_returns code) as (d & Hr & _).
  destruct (features_nonneg code) as [Hc Hl].
  eexists; split; [exact Hr|]; cbn [confidence].
  split; [apply split_length_pos|].
  apply min_0_95_bounds, weighted_sum_at_least; assumption.
Qed.

(** ** The project summary *)

Lemma filter_comm {A : Type} (f g : A -> bool) (l : list A) :
  filter f (filter g l) = filter g (filter f l).
Proof.
  induction l as [|a l IH]; [reflexivity|]; cbn [filter].
  destruct (f a) eqn:Hf, (g a) eqn:Hg; cbn [filter];
    rewrite ?Hf, ?Hg, IH; reflexivity.
Qed.

Lemma of_int_nonzero (z : Z) : 1 <= z -> feq (of_int z) f0_0 = false.
Proof.
  intros Hz; pose proof (of_int_at_least z Hz) as H.
  now apply at_least_positive in H.
Qed.

(** The division by the number of files never raises. *)
Lemma average_confidence_returns (st : ScanProject.AllResults) :
  exists summary,
    ScanProject.average_confidence st = Ok summary
    /\ ScanProject.total_files summary = ScanProject.total_files st
    /\ ScanProject.files_with_bugs summary = ScanProject.files_with_bugs st
    /\ ScanProject.total_issues summary = ScanProject.total_issues st
    /\ ScanProject.severity_breakdown summary
       = ScanProject.severity_breakdown st
    /\ ScanProject.files summary = ScanProject.files st
    /\ ScanProject.confidence summary
       = if ScanProject.total_files st >? 0
         then fdiv (fsum (map ScanProject.file_confidence (ScanProject.files st)))
                   (of_int (ScanProject.total_files st))
         else ScanProject.confidence st.
Proof.
  unfold ScanProject.average_confidence.
  destruct (ScanProject.total_files st >? 0) eqn:Hn.
  - unfold truediv; rewrite of_int_nonzero by lia; cbn [bind].
    eexists; split; [reflexivity|]; cbn; repeat split.
  - exists st; repeat split.
Qed.

Section SummaryFacts.

Variable analyse : string -> exc Result.

Lemma scan_fold_analysed (xs : list Scanned) (st : ScanProject.AllResults) :
  Forall (analysed_by analyse) xs ->
  keys (ScanProject.severity_breakdown st) = severities ->
  let st' := fold_left (ScanProject.scan_file analyse) (map source_of xs) st in
  ScanProject.total_files st'
  = ScanProject.total_files st + Z.of_nat (List.length xs)
  /\ ScanProject.files_with_bugs st'
     = ScanProject.files_with_bugs st
       + Z.of_nat (List.length (filter (fun x => has_bugs (result_of x)) xs))
  /\ ScanProject.total_issues st'
     = ScanProject.total_issues st
       + Py.sum (map (fun x => total_issues (result_of x)) xs)
  /\ keys (ScanProject.severity_breakdown st') = severities
  /\ (forall s, bucket (ScanProject.severity_breakdown st') s
                = bucket (ScanProject.severity_breakdown st) s
                  + Py.sum (map (fun x => bucket (severity_breakdown (result_of x)) s) xs))
  /\ ScanProject.files st'
     = (ScanProject.files st
        ++ map (fun x => per_file (fst (fst x)) (result_of x)) xs)%list
  /\ ScanProject.confidence st' = ScanProject.confidence st.
Proof.
  intros Hxs; revert st; induction Hxs as [|x xs Hx Hxs IH]; intros st Hkeys.
  - cbn [map fold_left List.length filter]; unfold Py.sum; cbn [fold_left].
    rewrite app_nil_r; repeat split; try assumption; intros; lia.
  - destruct (scan_file_analysed analyse st x Hx Hkeys)
      as (H1 & H2 & H3 & H4 & H5 & H6 & H7).
    destruct (IH _ H4) as (I1 & I2 & I3 & I4 & I5 & I6 & I7).
    cbn [map fold_left].
    split; [rewrite I1, H1; cbn [List.length]; lia|].
    split; [rewrite I2, H2; cbn [filter];
            destruct (has_bugs (result_of x)); cbn [List.length]; lia|].
    split; [rewrite I3, H3, sum_cons; lia|].
    split; [assumption|].
    split; [intros s; rewrite I5, H5, sum_cons; lia|].
    split; [rewrite I6, H6, <- app_assoc; reflexivity|].
    congruence.
Qed.

(** The entries of the per-file sequence come from files that were
    read and analysed. *)
Lemma scan_fold_entries (all fs : list ScanProject.SourceFile)
  (st : ScanProject.AllResults) :
  let scanned entry :=
    exists f, In f all /\ fails analyse f = false
              /\ ScanProject.path entry = fst f in
  incl fs all ->
  Forall scanned (ScanProject.files st) ->
  Forall scanned
    (ScanProject.files (fold_left (ScanProject.scan_file analyse) fs st)).
Proof.
  intros scanned; revert st; induction fs as [|f fs IH]; intros st Hincl Hst;
    [exact Hst|].
  cbn [fold_left]; apply IH; [intros g Hg; apply Hincl; now right|].
  assert (Hf : In f all) by (apply Hincl; now left).
  destruct f as [p [text|e]]; cbn [ScanProject.scan_file]; [|exact Hst].
  destruct (analyse text) as [r|e] eqn:Hr; [|exact Hst].
  destruct (ScanProject.aggregate_severity _ _) as [d [e|]];
    cbn [ScanProject.files]; [exact Hst|].
  apply Forall_app; split; [exact Hst|].
  constructor; [|constructor].
  exists (p, Ok text); unfold fails; cbn [fst snd ScanProject.path].
  rewrite Hr; repeat split; assumption.
Qed.

End SummaryFacts.

(** An unreadable file and a file under node_modules leave the summary
    of the scan as it is without them. *)
Example scan_project_skips :
  ScanProject.scan_project
    [("src/app.py", Ok null_comparison);
     ("src/broken.py", Raise (UnicodeDecodeError "invalid start byte"));
     ("node_modules/lib/index.js", Ok two_secrets);
     ("src/gone.js", Raise (OSError "No such file or directory"))]
  = ScanProject.scan_project [("src/app.py", Ok null_comparison)]
  /\ option_map (fun summary =>
                   (ScanProject.total_files summary,
                    ScanProject.total_issues summary,
                    map ScanProject.path (ScanProject.files summary)))
        (match ScanProject.scan_project [("src/app.py", Ok null_comparison)]
         with Ok summary => Some summary | Raise _ => None end)
     = Some (1, 1, ["src/app.py"]).
Proof. split; vm_compute; reflexivity. Qed.



(** C7. A file whose reading or analysis raises is skipped and the scan
    goes on: the scan returns a summary whatever the files; it is the
    summary of the scan of the other files alone, so the file adds nothing
    to the counts, to the buckets or to the confidence, and every entry of
    the per-file sequence belongs to a file that was read and analysed. *)
Theorem scan_skips_failing_files (analyse : string -> exc Result)
  (fs : list ScanProject.SourceFile) :
  (exists summary,
      ScanProject.scan_files analyse fs = Ok summary
      /\ Forall (fun entry =>
                   exists f, In f fs /\ fails analyse f = false
                             /\ ScanProject.path entry = fst f)
                (ScanProject.files summary))
  /\ ScanProject.scan_files analyse fs
     = ScanProject.scan_files analyse
         (filter (fun f => negb (fails analyse f)) fs)
  /\ ScanProject.scan_project fs
     = ScanProject.scan_project (filter (fun f => negb (fails predict f)) fs).
Proof.
  split; [|split].
  - unfold ScanProject.scan_files.
    destruct (average_confidence_returns
                (fold_left (ScanProject.scan_file analyse) fs
                   ScanProject.all_results_init))
      as (summary & Hs & _ & _ & _ & _ & Hfiles & _).
    exists summary; split; [exact Hs|]; rewrite Hfiles.
    apply scan_fold_entries; [apply incl_refl|constructor].
  - unfold ScanProject.scan_files; now rewrite scan_fold_skips.
  - unfold ScanProject.scan_project, ScanProject.scan_files.
    rewrite scan_fold_skips, filter_comm; reflexivity.
Qed.

(** * Further properties of the code *)

Import Props.

(** ** Lower bounds on rounded products and sums *)

Lemma le_scaled_at (m0 m : positive) (e0 e k : Z) :
  k <= e0 -> k <= e ->
  (le_scaled m0 e0 m e <-> Z.pos m0 * 2 ^ (e0 - k) <= Z.pos m * 2 ^ (e - k)).
Proof.
  intros H0 H; unfold le_scaled; set (mu := Z.min e0 e).
  pose proof (pow2_pos (mu - k) ltac:(lia)) as Hp.
  replace (e0 - k) with ((e0 - mu) + (mu - k)) by lia.
  replace (e - k) with ((e - mu) + (mu - k)) by lia.
  rewrite !Z.pow_add_r, !Z.mul_assoc by lia.
  split; intros Hle.
  - apply Z.mul_le_mono_nonneg_r; lia.
  - apply Z.mul_le_mono_pos_r in Hle; assumption.
Qed.

Lemma at_least_scaled (m1 m : positive) (e1 e k : Z) :
  at_least m1 e1 (S754_finite false m e) -> Z.pos m1 < 2 ^ 53 ->
  k <= e1 -> k <= e ->
  Z.pos m1 * 2 ^ (e1 - k) <= Z.pos m * 2 ^ (e - k).
Proof.
  intros [[Hm _] Hx] Hm1 Hk1 Hk.
  destruct Hx as [Hlt|[-> Hle]].
  - pose proof (pow2_pos (e1 - k) ltac:(lia)) as Hp.
    replace (e - k) with ((e1 - k) + (e - e1)) by lia.
    rewrite Z.pow_add_r by lia.
    assert (2 ^ 1 <= 2 ^ (e - e1)) by (apply Z.pow_le_mono_r; lia).
    change (2 ^ 1) with 2 in *.
    replace (2 ^ 53) with (2 * 2 ^ 52) in Hm1 by reflexivity.
    assert (Z.pos m1 <= Z.pos m * 2 ^ (e - e1)) by nia.
    rewrite (Z.mul_comm (2 ^ (e1 - k))), Z.mul_assoc.
    apply Z.mul_le_mono_nonneg_r; lia.
  - pose proof (pow2_pos (e1 - k) ltac:(lia)).
    apply Z.mul_le_mono_nonneg_r; lia.
Qed.

Lemma of_int_ge (z : Z) (m0 : positive) (e0 : Z) :
  bits53 m0 -> -1074 <= e0 <= 0 -> Z.pos m0 <= z * 2 ^ (- e0) ->
  at_least m0 e0 (of_int z).
Proof.
  intros Hm0 He0 Hz.
  pose proof (pow2_pos (- e0) ltac:(lia)) as Hp.
  destruct z as [|p|p]; [lia| |nia].
  unfold of_int; cbn [binary_normalize].
  apply binary_round_at_least; [exact Hm0|lia|].
  apply (le_scaled_at m0 p e0 0 e0); [lia|lia|].
  rewrite Z.sub_diag; change (2 ^ 0) with 1.
  replace (0 - e0) with (- e0) by lia; lia.
Qed.

Lemma fmul_ge (x : float) (m1 mk m0 : positive) (e1 ek e0 : Z) :
  at_least m1 e1 x -> Z.pos m1 < 2 ^ 53 ->
  bits53 m0 -> -1074 <= e0 ->
  le_scaled m0 e0 (m1 * mk) (e1 + ek) ->
  at_least m0 e0 (fmul x (S754_finite false mk ek)).
Proof.
  intros Hx Hm1 Hm0 He0 Hle.
  float_cases x m e; try contradiction; [exact I|].
  pose proof Hx as [[Hm Hm'] _].
  unfold fmul; cbn [SFmul xorb].
  apply binary_round_aux_at_least; [rewrite Pos2Z.inj_mul; nia|exact Hm0|lia|].
  set (k := Z.min e0 (Z.min (e1 + ek) (e + ek))).
  apply (le_scaled_at _ _ _ _ k); [lia|lia|].
  apply (le_scaled_at _ _ _ _ k) in Hle; [|lia|lia].
  eapply Z.le_trans; [exact Hle|].
  pose proof (at_least_scaled m1 m e1 e (k - ek) Hx Hm1 ltac:(lia) ltac:(lia)) as Hs.
  replace (e1 + ek - k) with (e1 - (k - ek)) by lia.
  replace (e + ek - k) with (e - (k - ek)) by lia.
  rewrite !Pos2Z.inj_mul.
  rewrite (Z.mul_comm (Z.pos m1)), (Z.mul_comm (Z.pos m)), <- !Z.mul_assoc.
  apply Z.mul_le_mono_nonneg_l; lia.
Qed.

Lemma fadd_ge (a b : float) (ma mb m0 : positive) (ea eb e0 k : Z) :
  at_least ma ea a -> at_least mb eb b ->
  Z.pos ma < 2 ^ 53 -> Z.pos mb < 2 ^ 53 ->
  bits53 m0 -> -1074 <= e0 ->
  k <= e0 -> k <= ea -> k <= eb ->
  Z.pos m0 * 2 ^ (e0 - k) <= Z.pos ma * 2 ^ (ea - k) + Z.pos mb * 2 ^ (eb - k) ->
  at_least m0 e0 (fadd a b).
Proof.
  intros Ha Hb Hma Hmb Hm0 He0 Hk0 Hka Hkb Hsum.
  float_cases a pa qa; try contradiction;
    float_cases b pb qb; try contradiction; try exact I.
  unfold fadd; cbn [SFadd cond_Zopp].
  set (ez := Z.min qa qb).
  destruct (shl_align_down pa qa ez ltac:(lia)) as [Hfa _].
  destruct (shl_align_down pb qb ez ltac:(lia)) as [Hfb _].
  set (pa' := fst (shl_align pa qa ez)) in *.
  set (pb' := fst (shl_align pb qb ez)) in *.
  change (Z.pos pa' + Z.pos pb') with (Z.pos (pa' + pb')).
  cbn [binary_normalize].
  apply binary_round_at_least; [exact Hm0|lia|].
  set (j := Z.min k ez).
  apply (le_scaled_at _ _ _ _ j); [lia|lia|].
  rewrite Pos2Z.inj_add, Hfa, Hfb, Z.mul_add_distr_r.
  rewrite <- !Z.mul_assoc, <- !Z.pow_add_r by lia.
  replace (qa - ez + (ez - j)) with (qa - j) by lia.
  replace (qb - ez + (ez - j)) with (qb - j) by lia.
  pose proof (at_least_scaled ma pa ea qa j Ha Hma ltac:(lia) ltac:(lia)) as Sa.
  pose proof (at_least_scaled mb pb eb qb j Hb Hmb ltac:(lia) ltac:(lia)) as Sb.
  pose proof (pow2_pos (k - j) ltac:(lia)) as Hp.
  assert (Hs : Z.pos m0 * 2 ^ (e0 - j)
               <= Z.pos ma * 2 ^ (ea - j) + Z.pos mb * 2 ^ (eb - j)).
  { replace (e0 - j) with ((e0 - k) + (k - j)) by lia.
    replace (ea - j) with ((ea - k) + (k - j)) by lia.
    replace (eb - j) with ((eb - k) + (k - j)) by lia.
    rewrite !Z.pow_add_r, !Z.mul_assoc, <- Z.mul_add_distr_r by lia.
    apply Z.mul_le_mono_nonneg_r; lia. }
  lia.
Qed.

Lemma at_least_not_flt (m0 : positive) (e0 : Z) (x : float) :
  at_least m0 e0 x -> flt x (S754_finite false m0 e0) = false.
Proof.
  float_cases x m e; try contradiction; [reflexivity|].
  intros [_ Hx]; unfold flt, SFltb; cbn [SFcompare].
  destruct Hx as [Hlt|[-> Hle]].
  - apply Z.compare_gt_iff in Hlt; now rewrite Hlt.
  - rewrite Z.compare_refl.
    change (Pos.compare_cont Eq m m0) with (Pos.compare m m0).
    destruct (Pos.compare_spec m m0); [reflexivity|lia|reflexivity].
Qed.

(** ** The thresholds of the scorer *)

Lemma range_in (lo n : nat) (z : Z) :
  Z.of_nat lo <= z < Z.of_nat lo + Z.of_nat n -> In z (range lo n).
Proof.
  intros H; unfold range; apply in_map_iff.
  exists (Z.to_nat z); split; [lia|apply in_seq; lia].
Qed.

(** The decision of the scorer on the counts below 10 and the line
    counts below 1000, by evaluation. *)
Lemma threshold_table :
  forallb (fun c =>
    forallb (fun lc =>
      Bool.eqb (flt f0_3 (Py.min f0_95 (weighted_sum c lc)))
               (exceeds_threshold c lc)
      && Bool.eqb (feq (Py.min f0_95 (weighted_sum c lc)) f0_95)
                  (saturates c lc))
      (range 1 999))
    (range 0 10) = true.
Proof. vm_compute; reflexivity. Qed.

Lemma threshold_small (c lc : Z) :
  0 <= c <= 9 -> 1 <= lc <= 999 ->
  flt f0_3 (Py.min f0_95 (weighted_sum c lc)) = exceeds_threshold c lc
  /\ feq (Py.min f0_95 (weighted_sum c lc)) f0_95 = saturates c lc.
Proof.
  intros Hc Hl; pose proof threshold_table as H.
  rewrite forallb_forall in H; specialize (H c (range_in 0 10 c ltac:(lia))).
  rewrite forallb_forall in H; specialize (H lc (range_in 1 999 lc ltac:(lia))).
  apply andb_prop in H as [H1 H2].
  split; apply Bool.eqb_prop; assumption.
Qed.

Lemma product_nonneg (c : Z) : 0 <= c -> nonneg (fmul (of_int c) f0_1).
Proof.
  intros Hc; destruct (Z.eq_dec c 0) as [->|Hne]; [exact I|].
  apply at_least_nonneg with 7205759403792794%positive (-56).
  apply fmul_at_least;
    [apply of_int_at_least; lia|rewrite pow2_52, pow2_53; lia|lia].
Qed.

Ltac bits := unfold bits53; rewrite ?pow2_52, ?pow2_53; lia.
Ltac closed_le := unfold le_scaled; vm_compute; discriminate.

(** A thousand lines or more: the sum is at least 0.95. *)
Lemma weighted_sum_many_lines (c lc : Z) :
  0 <= c -> 1000 <= lc ->
  at_least 8556839292003942 (-53) (weighted_sum c lc).
Proof.
  intros Hc Hl; unfold weighted_sum.
  apply fadd_at_least; [now apply product_nonneg| |bits|lia].
  apply fmul_ge with 8796093022208000%positive (-43); [|bits|bits|lia|closed_le].
  apply of_int_ge; [bits|lia|].
  change (2 ^ (- -43)) with 8796093022208; lia.
Qed.

(** Ten branches and loops or more: the sum is at least 0.95. *)
Lemma weighted_sum_many_branches (c lc : Z) :
  10 <= c -> 1 <= lc ->
  at_least 8556839292003942 (-53) (weighted_sum c lc).
Proof.
  intros Hc Hl; unfold weighted_sum.
  apply fadd_ge with 8556839292003942%positive 4611686018427388%positive
                     (-53) (-62) (-62); try bits; try lia.
  1: { apply fmul_ge with 5629499534213120%positive (-49);
         [|bits|bits|lia|closed_le].
       apply of_int_ge; [bits|lia|].
       change (2 ^ (- -49)) with 562949953421312; lia. }
  1: apply fmul_at_least; [apply of_int_at_least; lia|bits|lia].
  all: vm_compute; discriminate.
Qed.

Lemma at_least_saturated (x : float) :
  at_least 8556839292003942 (-53) x -> Py.min f0_95 x = f0_95.
Proof.
  intros Hx; unfold Py.min.
  change f0_95 with (S754_finite false 8556839292003942 (-53)).
  now rewrite (at_least_not_flt _ _ _ Hx).
Qed.

(** The decision of the scorer on any counts. *)
Lemma scorer_threshold (c lc : Z) :
  0 <= c -> 1 <= lc ->
  flt f0_3 (Py.min f0_95 (weighted_sum c lc)) = exceeds_threshold c lc
  /\ feq (Py.min f0_95 (weighted_sum c lc)) f0_95 = saturates c lc.
Proof.
  intros Hc Hl.
  destruct (Z_le_gt_dec 1000 lc) as [Hmany|Hfew].
  - rewrite (at_least_saturated _ (weighted_sum_many_lines c lc Hc Hmany)).
    unfold exceeds_threshold, saturates.
    replace (300 <? 100 * c + lc) with true by (symmetry; apply Z.ltb_lt; lia).
    replace (950 <=? 100 * c + lc) with true by (symmetry; apply Z.leb_le; lia).
    split; reflexivity.
  - destruct (Z_le_gt_dec 10 c) as [Hbr|Hsmall];
      [|apply threshold_small; lia].
    rewrite (at_least_saturated _ (weighted_sum_many_branches c lc Hbr Hl)).
    unfold exceeds_threshold, saturates.
    replace (300 <? 100 * c + lc) with true by (symmetry; apply Z.ltb_lt; lia).
    replace (950 <=? 100 * c + lc) with true by (symmetry; apply Z.leb_le; lia).
    split; reflexivity.
Qed.

(** ** The line matcher on any rule table *)

Lemma detect_with_fold (rules : list PatternInfo) (lines : list (Z * string))
  (bugs : list Bug) :
  fold_left
    (fun bugs '(i, text) => fold_left (check_pattern i text) rules bugs)
    lines bugs
  = (bugs ++ flat_map (fun '(i, text) => findings_with rules i text) lines)%list.
Proof.
  revert bugs; induction lines as [|[i text] lines IH]; intros bugs;
    cbn [fold_left flat_map].
  - now rewrite app_nil_r.
  - rewrite IH, check_pattern_fold, <- app_assoc; reflexivity.
Qed.

Lemma in_enumerate {A : Type} (l : list A) (start i : Z) (x : A) :
  In (i, x) (enumerate start l)
  <-> exists n, nth_error l n = Some x /\ i = start + Z.of_nat n.
Proof.
  revert start; induction l as [|a l IH]; intros start; cbn [enumerate].
  - split; [contradiction|intros [[|n] [H _]]; discriminate].
  - split.
    + intros [[= <- <-]|Hin].
      * exists 0%nat; split; [reflexivity|lia].
      * apply IH in Hin as (n & Hn & ->).
        exists (S n); split; [exact Hn|lia].
    + intros ([|n] & Hn & ->).
      * left; cbn in Hn; injection Hn as ->; f_equal; lia.
      * right; apply IH; exists n; split; [exact Hn|lia].
Qed.

Lemma enumerate_app {A : Type} (l1 l2 : list A) (start : Z) :
  enumerate start (l1 ++ l2)
  = (enumerate start l1
     ++ enumerate (start + Z.of_nat (List.length l1)) l2)%list.
Proof.
  revert start; induction l1 as [|a l1 IH]; intros start;
    cbn [enumerate app List.length].
  - f_equal; lia.
  - rewrite IH; do 3 f_equal; lia.
Qed.

Lemma split_app_lf (a b : string) :
  split LF (a ++ String LF b) = (split LF a ++ split LF b)%list.
Proof.
  induction a as [|c a IH]; cbn [String.append split].
  - rewrite Ascii.eqb_refl; reflexivity.
  - rewrite IH; destruct (Ascii.eqb c LF); [reflexivity|].
    pose proof (split_not_nil LF a) as Hne.
    destruct (split LF a); [contradiction|reflexivity].
Qed.

Lemma findings_with_shift (rules : list PatternInfo) (i n : Z) (text : string) :
  findings_with rules (i + n) text = map (shift_line n) (findings_with rules i text).
Proof. unfold findings_with; rewrite map_map; reflexivity. Qed.

Lemma flat_map_enumerate_shift (rules : list PatternInfo) (l : list string)
  (start n : Z) :
  flat_map (fun '(i, text) => findings_with rules i text) (enumerate (start + n) l)
  = map (shift_line n)
      (flat_map (fun '(i, text) => findings_with rules i text) (enumerate start l)).
Proof.
  revert start; induction l as [|text l IH]; intros start;
    cbn [enumerate flat_map]; [reflexivity|].
  rewrite map_app, <- findings_with_shift.
  replace (start + n + 1) with (start + 1 + n) by lia.
  now rewrite IH.
Qed.

(** X5. Detection is local to the lines: the findings of a text [a], a
    line feed and a text [b] are the findings of [a] followed by those of
    [b], the line numbers of the latter moved down by the number of lines
    of [a]. *)
Theorem detect_pattern_bugs_line_local (a b : string) :
  detect_pattern_bugs (a ++ String LF b)
  = (detect_pattern_bugs a
     ++ map (shift_line (Z.of_nat (List.length (split LF a))))
            (detect_pattern_bugs b))%list.
Proof.
  unfold detect_pattern_bugs; rewrite !detect_with_fold; cbn [app].
  rewrite split_app_lf, enumerate_app, flat_map_app.
  now rewrite flat_map_enumerate_shift.
Qed.

(** X3. A finding is in the result exactly when it is the finding of a
    rule of the table on a line of the text that the rule matches: its
    line number is the 1-based position of that line, its code the
    stripped line and its type [pattern]. *)
Theorem detect_pattern_bugs_in_iff (code : string) (b : Bug) :
  In b (detect_pattern_bugs code)
  <-> exists n text rule,
        nth_error (split LF code) n = Some text
        /\ In rule bug_patterns
        /\ search true (pattern rule) text = true
        /\ b = {| line := Z.of_nat n + 1;
                  severity := pattern_severity rule;
                  message := pattern_message rule;
                  code := strip text;
                  type := "pattern" |}.
Proof.
  unfold detect_pattern_bugs; rewrite detect_with_fold; cbn [app].
  rewrite in_flat_map; split.
  - intros ([i text] & Hin & Hb).
    apply in_enumerate in Hin as (n & Hn & ->).
    unfold findings_with in Hb; apply in_map_iff in Hb as (rule & <- & Hr).
    apply filter_In in Hr as [Hr Hs].
    exists n, text, rule; repeat split; try assumption.
    unfold finding; f_equal; lia.
  - intros (n & text & rule & Hn & Hr & Hs & ->).
    exists (1 + Z.of_nat n, text); split.
    + apply in_enumerate; exists n; split; [exact Hn|reflexivity].
    + unfold findings_with; apply in_map_iff; exists rule; split.
      * unfold finding; f_equal; lia.
      * apply filter_In; split; assumption.
Qed.

(** ** One finding for a rule and a line *)

Lemma findings_with_lines (rules : list PatternInfo) (i : Z) (text : string) :
  Forall (fun b => line b = i) (findings_with rules i text).
Proof.
  unfold findings_with; apply Forall_forall; intros b Hin.
  apply in_map_iff in Hin as (rule & <- & _); reflexivity.
Qed.

Lemma lines_from (rules : list PatternInfo) (l : list string) (start : Z) :
  Forall (fun b => start <= line b)
    (flat_map (fun '(i, text) => findings_with rules i text) (enumerate start l)).
Proof.
  revert start; induction l as [|text l IH]; intros start;
    cbn [enumerate flat_map]; [constructor|].
  apply Forall_app; split.
  - eapply Forall_impl; [|apply findings_with_lines]; cbn; intros; lia.
  - eapply Forall_impl; [|apply IH]; cbn; intros; lia.
Qed.

Lemma filter_all {A : Type} (f : A -> bool) (l : list A) :
  Forall (fun x => f x = true) l -> filter f l = l.
Proof.
  induction 1 as [|x l Hx _ IH]; cbn [filter]; [reflexivity|].
  now rewrite Hx, IH.
Qed.

Lemma filter_none {A : Type} (f : A -> bool) (l : list A) :
  Forall (fun x => f x = false) l -> filter f l = [].
Proof.
  induction 1 as [|x l Hx _ IH]; cbn [filter]; [reflexivity|].
  now rewrite Hx, IH.
Qed.

(** The findings of line [i] are those of its text, when there is such a
    line. *)
Lemma findings_on_line (rules : list PatternInfo) (l : list string)
  (start i : Z) :
  let on_line :=
    filter (fun b => line b =? i)
      (flat_map (fun '(j, text) => findings_with rules j text)
                (enumerate start l)) in
  on_line = [] \/ exists text, In text l /\ on_line = findings_with rules i text.
Proof.
  revert start; induction l as [|text l IH]; intros start;
    cbn [enumerate flat_map]; [now left|].
  rewrite filter_app.
  destruct (Z.eq_dec start i) as [->|Hne].
  - right; exists text; split; [now left|].
    rewrite filter_all, filter_none, app_nil_r; [reflexivity| |].
    + eapply Forall_impl; [|apply (lines_from rules l (i + 1))].
      cbn; intros b Hb; apply Z.eqb_neq; lia.
    + eapply Forall_impl; [|apply findings_with_lines].
      cbn; intros b Hb; apply Z.eqb_eq; exact Hb.
  - rewrite (filter_none _ (findings_with rules start text)).
    + destruct (IH (start + 1)) as [Hnil|(t & Hin & Heq)]; [now left|].
      right; exists t; split; [now right|exact Heq].
    + eapply Forall_impl; [|apply findings_with_lines].
      cbn; intros b Hb; apply Z.eqb_neq; lia.
Qed.

Lemma matching_rules_distinct (rules : list PatternInfo) (text : string) :
  NoDup (map pattern_message rules) ->
  NoDup (map pattern_message
           (filter (fun rule => search true (pattern rule) text) rules)).
Proof.
  induction rules as [|rule rules IH]; cbn [map filter]; intros H;
    [constructor|].
  apply NoDup_cons_iff in H as [Hfresh Hrest].
  destruct (search true (pattern rule) text); cbn [map]; auto.
  apply NoDup_cons; auto.
  rewrite in_map_iff; intros (other & Hmsg & Hin).
  apply filter_In in Hin as [Hin _].
  apply Hfresh, in_map_iff; eauto.
Qed.

Lemma findings_with_messages (rules : list PatternInfo) (i : Z) (text : string) :
  map message (findings_with rules i text)
  = map pattern_message
      (filter (fun rule => search true (pattern rule) text) rules).
Proof. unfold findings_with; rewrite map_map; reflexivity. Qed.

Lemma findings_with_length (rules : list PatternInfo) (i : Z) (text : string) :
  (List.length (findings_with rules i text) <= List.length rules)%nat.
Proof. unfold findings_with; rewrite length_map; apply filter_length_le. Qed.

Lemma rule_messages_distinct : NoDup (map pattern_message bug_patterns).
Proof.
  repeat (constructor;
          [cbn; intros H;
           repeat (destruct H as [H|H]; [discriminate H|]); exact H|]).
  constructor.
Qed.

Lemma flat_map_findings_length (rules : list PatternInfo)
  (lines : list (Z * string)) :
  Z.of_nat (List.length
              (flat_map (fun '(i, text) => findings_with rules i text) lines))
  <= Z.of_nat (List.length rules) * Z.of_nat (List.length lines).
Proof.
  induction lines as [|[i text] lines IH]; cbn [flat_map List.length]; [lia|].
  rewrite length_app, Nat2Z.inj_add, Nat2Z.inj_succ.
  pose proof (findings_with_length rules i text); lia.
Qed.

Lemma enumerate_length {A : Type} (l : list A) (start : Z) :
  List.length (enumerate start l) = List.length l.
Proof.
  revert start; induction l as [|a l IH]; intros start; cbn; [reflexivity|].
  now rewrite IH.
Qed.

(** X4. A rule reports a line at most once, however often it matches in
    it: the findings of a line carry distinct messages and are at most
    ten, and a text has at most ten findings per line. *)
Theorem detect_pattern_bugs_once_per_rule (code : string) (i : Z) :
  let on_line := filter (fun b => line b =? i) (detect_pattern_bugs code) in
  NoDup (map message on_line)
  /\ (List.length on_line <= 10)%nat
  /\ Z.of_nat (List.length (detect_pattern_bugs code))
     <= 10 * Z.of_nat (List.length (split LF code)).
Proof.
  unfold detect_pattern_bugs; rewrite detect_with_fold; cbn [app].
  split; [|split].
  - destruct (findings_on_line bug_patterns (split LF code) 1 i)
      as [->|(text & _ & ->)]; [constructor|].
    rewrite findings_with_messages.
    apply matching_rules_distinct, rule_messages_distinct.
  - destruct (findings_on_line bug_patterns (split LF code) 1 i)
      as [->|(text & _ & ->)]; [cbn; lia|].
    apply (findings_with_length bug_patterns i text).
  - pose proof (flat_map_findings_length bug_patterns
                  (enumerate 1 (split LF code))) as H.
    rewrite enumerate_length in H; exact H.
Qed.

(** ** Matching ignores the case of the ASCII letters *)

Lemma ascii_lower_facts (c : ascii) :
  lower (lower c) = lower c
  /\ is_space (lower c) = is_space c
  /\ is_word (lower c) = is_word c
  /\ Ascii.eqb (lower c) LF = Ascii.eqb c LF.
Proof.
  destruct c as [[|] [|] [|] [|] [|] [|] [|] [|]]; vm_compute;
    repeat split; reflexivity.
Qed.

Lemma chr_matches_lower (p c : ascii) :
  chr_matches true p (lower c) = chr_matches true p c.
Proof.
  unfold chr_matches; destruct (ascii_lower_facts c) as [-> _]; reflexivity.
Qed.

Lemma deriv_lower (r : regex) (c : ascii) :
  deriv true (lower c) r = deriv true c r.
Proof.
  destruct (ascii_lower_facts c) as (_ & Hs & Hw & _).
  induction r as [| |p|cs| | |r1 IH1 r2 IH2|r1 IH1 r2 IH2|r IH];
    cbn [deriv]; rewrite ?IH1, ?IH2, ?IH, ?Hs, ?Hw, ?chr_matches_lower;
    try reflexivity.
  f_equal; induction cs as [|p cs IHcs]; cbn [existsb]; [reflexivity|].
  now rewrite chr_matches_lower, IHcs.
Qed.

Lemma match_lower (s : string) (r : regex) :
  match_ true (lower_text s) r = match_ true s r.
Proof.
  revert r; induction s as [|c s IH]; intros r; cbn [lower_text match_];
    [reflexivity|].
  now rewrite deriv_lower, IH.
Qed.

Lemma search_lower (r : regex) (s : string) :
  search true r (lower_text s) = search true r s.
Proof.
  induction s as [|c s IH]; [reflexivity|].
  cbn [lower_text search]; rewrite IH.
  change (String (lower c) (lower_text s)) with (lower_text (String c s)).
  now rewrite match_lower.
Qed.

Lemma split_lower (s : string) :
  split LF (lower_text s) = map lower_text (split LF s).
Proof.
  induction s as [|c s IH]; cbn [lower_text split]; [reflexivity|].
  destruct (ascii_lower_facts c) as (_ & _ & _ & ->).
  rewrite IH; destruct (Ascii.eqb c LF); [reflexivity|].
  pose proof (split_not_nil LF s) as Hne.
  destruct (split LF s); [contradiction|reflexivity].
Qed.

Lemma findings_with_headlines (rules : list PatternInfo) (i : Z) (text : string) :
  map headline (findings_with rules i (lower_text text))
  = map headline (findings_with rules i text).
Proof.
  unfold findings_with; rewrite !map_map; cbn.
  rewrite (filter_ext _ (fun rule => search true (pattern rule) text));
    [reflexivity|].
  intros rule; apply search_lower.
Qed.

Lemma detect_lower (s : string) :
  map headline (detect_pattern_bugs (lower_text s))
  = map headline (detect_pattern_bugs s).
Proof.
  unfold detect_pattern_bugs; rewrite !detect_with_fold; cbn [app].
  rewrite split_lower; generalize 1; induction (split LF s) as [|text l IH];
    intros start; cbn [map enumerate flat_map]; [reflexivity|].
  now rewrite !map_app, findings_with_headlines, IH.
Qed.

(** X6. Matching ignores the case of the ASCII letters: two texts that
    differ only in it get findings with the same line numbers, severities
    and messages. *)
Theorem detect_pattern_bugs_ignores_case (s s' : string) :
  lower_text s = lower_text s' ->
  map headline (detect_pattern_bugs s) = map headline (detect_pattern_bugs s').
Proof.
  intros H; rewrite <- (detect_lower s), <- (detect_lower s'), H; reflexivity.
Qed.

(** Two texts to which X6 applies. *)
Lemma detect_pattern_bugs_ignores_case_witness :
  lower_text "EVAL(x) # todo" = lower_text "eval(X) # TODO"
  /\ map headline (detect_pattern_bugs "EVAL(x) # todo")
     = map headline (detect_pattern_bugs "eval(X) # TODO").
Proof.
  split; [reflexivity|].
  apply (detect_pattern_bugs_ignores_case "EVAL(x) # todo" "eval(X) # TODO").
  reflexivity.
Defined.

(** ** The severity aggregator and [predict] in closed form *)

Lemma dict_of_buckets (d : dict) (bugs : list Bug) :
  keys d = severities ->
  (forall s, bucket d s = tally s bugs) ->
  d = breakdown_of bugs.
Proof.
  intros Hkeys Hb.
  destruct (dict_of_severities d Hkeys) as (c & h & m & l & ->).
  unfold breakdown_of, severities; cbn [map].
  rewrite <- (Hb "critical"), <- (Hb "high"), <- (Hb "medium"), <- (Hb "low").
  reflexivity.
Qed.

Lemma calculate_severity_breakdown (bugs : list Bug) :
  forallb (fun b => valid_severity (severity b)) bugs = true ->
  _calculate_severity bugs = Ok (breakdown_of bugs).
Proof.
  intros Hall.
  destruct (calculate_severity_valid bugs severity_count_init eq_refl Hall)
    as (d & Hd & Hkeys & _ & Hb).
  unfold _calculate_severity; rewrite Hd; f_equal.
  apply (dict_of_buckets d bugs Hkeys).
  intros s; rewrite Hb, bucket_init; lia.
Qed.

(** X10. On findings whose severities are all canonical, the severity
    aggregation returns the four keys in their order, each with the number
    of findings of that severity. *)
Theorem calculate_severity_counts (bugs : list Bug) :
  forallb (fun b => valid_severity (severity b)) bugs = true ->
  _calculate_severity bugs
  = Ok [("critical", tally "critical" bugs); ("high", tally "high" bugs);
        ("medium", tally "medium" bugs); ("low", tally "low" bugs)].
Proof. exact (calculate_severity_breakdown bugs). Qed.

(** The findings of the test of the aggregation, to which X10 applies. *)
Lemma calculate_severity_counts_witness :
  let bug s := {| line := 0; severity := s; message := ""; code := "";
                  type := "" |} in
  let bugs := [bug "critical"; bug "critical"; bug "high"; bug "medium";
               bug "low"] in
  forallb (fun b => valid_severity (severity b)) bugs = true
  /\ _calculate_severity bugs
     = Ok [("critical", 2); ("high", 1); ("medium", 1); ("low", 1)].
Proof.
  intros bug bugs; split; [reflexivity|].
  exact (calculate_severity_counts bugs eq_refl).
Defined.

Lemma predict_closed_form (code : string) : predict code = Ok (analysis code).
Proof.
  unfold predict.
  rewrite (calculate_severity_breakdown _ (findings_valid code)); cbn [bind].
  unfold analysis, breakdown_of, severities; cbn [map].
  rewrite <- detect_pattern_bugs_spec.
  unfold bug_probability_of, scorer, complexity_score_of, line_count_of,
    extract_features; cbn [nth].
  rewrite Z.gtb_ltb; reflexivity.
Qed.

(** ** A rule table of the caller's *)

Section CustomRules.

Variable Estimator : Type.



Variable RandomForestClassifier TfidfVectorizer : Estimator.

Lemma load_model_keeps_rules (self : Instance.Self Estimator)
  (file : Instance.Loaded Estimator) :
  Instance.self_bug_patterns Estimator
    (fst (Instance.load_model Estimator self file))
  = Instance.self_bug_patterns Estimator self.
Proof.
  destruct file as [|e|data]; cbn [Instance.load_model fst]; try reflexivity.
  destruct (Instance.pickle_get Estimator data "model"); [|reflexivity].
  destruct (Instance.pickle_get Estimator data "vectorizer"); reflexivity.
Qed.

Lemma instance_predict_rules (self self' : Instance.Self Estimator)
  (code : string) :
  Instance.self_bug_patterns Estimator self
  = Instance.self_bug_patterns Estimator self' ->
  Instance.predict Estimator self code = Instance.predict Estimator self' code.
Proof.
  intros H; unfold Instance.predict, Instance.detect_pattern_bugs.
  now rewrite H.
Qed.

Lemma detect_bugs_closed_form (files : string -> Instance.Loaded Estimator)
  (code : string) (model_path : option string) :
  match Instance.detect_bugs Estimator RandomForestClassifier TfidfVectorizer
          files code model_path with
  | Ok r => r = analysis code
  | Raise e =>
      exists p, model_path = Some p /\ p <> ""
        /\ snd (Instance.load_model Estimator
                  (Instance.__init__ Estimator RandomForestClassifier
                     TfidfVectorizer) (files p))
           = Instance.LoadRaises e
  end.
Proof.
  set (init := Instance.__init__ Estimator RandomForestClassifier
                 TfidfVectorizer).
  assert (Hinit : forall self,
             Instance.self_bug_patterns Estimator self
             = Instance.self_bug_patterns Estimator init ->
             Instance.predict Estimator self code = Ok (analysis code)).
  { intros self Hs; rewrite (instance_predict_rules self init code Hs).
    exact (predict_closed_form code). }
  unfold Instance.detect_bugs; fold init.
  destruct model_path as [p|]; [|now rewrite Hinit].
  destruct (String.eqb_spec p "") as [->|Hp]; [now rewrite Hinit|].
  pose proof (load_model_keeps_rules init (files p)) as Hkeep.
  destruct (Instance.load_model Estimator init (files p)) as [self' [| |e]]
    eqn:Hload; cbn [fst snd] in *.
  - now rewrite (Hinit self' Hkeep).
  - now rewrite (Hinit self' Hkeep).
  - exists p; split; [reflexivity|split; [exact Hp|]].
    fold init; now rewrite Hload.
Qed.

(** X11. [detect_bugs] returns what [predict] returns on the text,
    whether no model path is given, the file is missing or a model is
    loaded: the loaded classifier and vectorizer change no result.  It
    raises only what loading the model raises, a missing file apart. *)
Theorem detect_bugs_ignores_model (files : string -> Instance.Loaded Estimator)
  (code : string) (model_path : option string) :
  match Instance.detect_bugs Estimator RandomForestClassifier TfidfVectorizer
          files code model_path with
  | Ok r => predict code = Ok r
  | Raise e =>
      exists p, model_path = Some p /\ p <> ""
        /\ snd (Instance.load_model Estimator
                  (Instance.__init__ Estimator RandomForestClassifier
                     TfidfVectorizer) (files p))
           = Instance.LoadRaises e
  end.
Proof.
  pose proof (detect_bugs_closed_form files code model_path) as H.
  destruct (Instance.detect_bugs Estimator RandomForestClassifier
              TfidfVectorizer files code model_path) as [r|e]; [|exact H].
  rewrite H; apply predict_closed_form.
Qed.

End CustomRules.

(** ** The summary of a project in closed form *)

Lemma analysis_analysed (p text : string) :
  analysed_by predict (p, text, analysis text).
Proof. split; [apply predict_closed_form|reflexivity]. Qed.

Lemma fails_predict (f : ScanProject.SourceFile) :
  fails predict f = negb (is_ok (snd f)).
Proof.
  unfold fails; destruct (snd f) as [text|e]; [|reflexivity].
  now rewrite predict_closed_form.
Qed.

Lemma scanned_sources (keep : string -> bool)
  (found : list ScanProject.SourceFile) :
  filter (fun f => negb (fails predict f)) (filter (fun f => keep (fst f)) found)
  = map (fun f => source_of (fst f, snd f, analysis (snd f)))
        (scanned_files keep found).
Proof.
  unfold scanned_files;
    induction found as [|[p [text|e]] found IH]; cbn [filter flat_map fst snd];
    [reflexivity| |].
  - destruct (keep p); cbn [filter app map]; [|exact IH].
    rewrite fails_predict; cbn [snd is_ok negb fst source_of].
    now rewrite IH.
  - destruct (keep p); cbn [filter app]; [|exact IH].
    rewrite fails_predict; cbn [snd is_ok negb]; exact IH.
Qed.

Lemma dict_of_sums (d : dict) (totals : string -> Z) :
  keys d = severities ->
  (forall s, bucket d s = totals s) ->
  d = map (fun s => (s, totals s)) severities.
Proof.
  intros Hkeys Hb.
  destruct (dict_of_severities d Hkeys) as (c & h & m & l & ->).
  unfold severities; cbn [map].
  rewrite <- (Hb "critical"), <- (Hb "high"), <- (Hb "medium"), <- (Hb "low").
  reflexivity.
Qed.

Lemma scan_project_closed_form (found : list ScanProject.SourceFile) :
  ScanProject.scan_project found
  = Ok (summary_of (scanned_files ScanProject.keep_file found)).
Proof.
  unfold ScanProject.scan_project, ScanProject.scan_files.
  rewrite scan_fold_skips, scanned_sources.
  set (files := scanned_files ScanProject.keep_file found).
  set (xs := map (fun f => (fst f, snd f, analysis (snd f))) files).
  replace (map (fun f => source_of (fst f, snd f, analysis (snd f))) files)
    with (map source_of xs) by (unfold xs; now rewrite map_map).
  assert (Hxs : Forall (analysed_by predict) xs).
  { unfold xs; apply Forall_forall; intros x Hin.
    apply in_map_iff in Hin as (f & <- & _); apply analysis_analysed. }
  destruct (scan_fold_analysed predict xs ScanProject.all_results_init Hxs
              eq_refl) as (H1 & H2 & H3 & H4 & H5 & H6 & H7).
  destruct (average_confidence_returns
              (fold_left (ScanProject.scan_file predict) (map source_of xs)
                 ScanProject.all_results_init))
    as (summary & Hs & S1 & S2 & S3 & S4 & S5 & S6).
  rewrite Hs; f_equal.
  rewrite H1 in S1, S6; rewrite H2 in S2; rewrite H3 in S3; rewrite H6 in S5, S6.
  rewrite H7 in S6.
  cbn [ScanProject.total_files ScanProject.files_with_bugs
       ScanProject.total_issues ScanProject.files ScanProject.confidence
       ScanProject.all_results_init app] in *.
  destruct summary as [tf fwb ti sb fl cf]; unfold summary_of.
  cbn [ScanProject.total_files ScanProject.files_with_bugs
       ScanProject.total_issues ScanProject.files ScanProject.confidence
       ScanProject.severity_breakdown] in *.
  subst tf fwb ti fl cf; rewrite !Z.add_0_l; f_equal.
  - unfold xs; now rewrite length_map.
  - unfold xs; rewrite !filter_map_swap, !length_map; reflexivity.
  - unfold xs; rewrite !map_map; reflexivity.
  - apply dict_of_sums; [now rewrite S4|].
    intros s; rewrite S4, H5; unfold xs; rewrite !map_map.
    cbn [ScanProject.severity_breakdown ScanProject.all_results_init].
    change (bucket [("critical", 0); ("high", 0); ("medium", 0); ("low", 0)] s)
      with (bucket severity_count_init s).
    rewrite bucket_init; reflexivity.
  - unfold xs; rewrite map_map; reflexivity.
  - unfold mean, xs; rewrite !map_map, !length_map.
    destruct files as [|f files]; [reflexivity|].
    cbn [List.length map]; rewrite Nat2Z.inj_succ.
    replace (Z.succ (Z.of_nat (List.length files)) >? 0) with true
      by (symmetry; apply Z.gtb_lt; lia).
    reflexivity.
Qed.

Lemma sum_app (xs ys : list Z) : Py.sum (xs ++ ys) = Py.sum xs + Py.sum ys.
Proof.
  induction xs as [|x xs IH]; cbn [app]; [unfold Py.sum at 2; cbn; lia|].
  rewrite !sum_cons, IH; lia.
Qed.

Lemma sum_map_add {A : Type} (f g : A -> Z) (l : list A) :
  Py.sum (map (fun x => f x + g x) l) = Py.sum (map f l) + Py.sum (map g l).
Proof.
  induction l as [|a l IH]; cbn [map]; [reflexivity|].
  rewrite !sum_cons, IH; lia.
Qed.

Lemma bucket_totals (totals : string -> Z) (s : string) :
  bucket (map (fun k => (k, totals k)) severities) s
  = if valid_severity s then totals s else 0.
Proof.
  unfold bucket, valid_severity, severities; cbn [map getitem existsb].
  rewrite !(String.eqb_sym s).
  destruct (String.eqb_spec "critical" s) as [<-|_]; [reflexivity|].
  destruct (String.eqb_spec "high" s) as [<-|_]; [reflexivity|].
  destruct (String.eqb_spec "medium" s) as [<-|_]; [reflexivity|].
  destruct (String.eqb_spec "low" s) as [<-|_]; reflexivity.
Qed.




Lemma scanned_files_kept (keep : string -> bool)
  (found : list ScanProject.SourceFile) :
  Forall (fun f => keep (fst f) = true) (scanned_files keep found)
  /\ (List.length (scanned_files keep found) <= List.length found)%nat.
Proof.
  unfold scanned_files; induction found as [|[p [text|e]] found [IH1 IH2]];
    cbn [flat_map fst snd List.length]; [split; [constructor|lia]| |].
  - destruct (keep p) eqn:Hk; cbn [app List.length].
    + split; [constructor; [exact Hk|exact IH1]|lia].
    + split; [exact IH1|lia].
  - cbn [app]; split; [exact IH1|lia].
Qed.


(** X13. Scanning two lists of files one after the other as one list adds
    up the counts of the two scans (files, files with bugs, issues, each
    severity bucket) and chains their per-file sequences. *)
Theorem scan_project_app (found1 found2 : list ScanProject.SourceFile) :
  exists s1 s2 s,
    ScanProject.scan_project found1 = Ok s1
    /\ ScanProject.scan_project found2 = Ok s2
    /\ ScanProject.scan_project (found1 ++ found2) = Ok s
    /\ ScanProject.total_files s
       = ScanProject.total_files s1 + ScanProject.total_files s2
    /\ ScanProject.files_with_bugs s
       = ScanProject.files_with_bugs s1 + ScanProject.files_with_bugs s2
    /\ ScanProject.total_issues s
       = ScanProject.total_issues s1 + ScanProject.total_issues s2
    /\ (forall severity,
          bucket (ScanProject.severity_breakdown s) severity
          = bucket (ScanProject.severity_breakdown s1) severity
            + bucket (ScanProject.severity_breakdown s2) severity)
    /\ ScanProject.files s
       = (ScanProject.files s1 ++ ScanProject.files s2)%list.
Proof.
  do 3 eexists; repeat (split; [apply scan_project_closed_form|]).
  unfold scanned_files; rewrite flat_map_app.
  fold (scanned_files ScanProject.keep_file found1).
  fold (scanned_files ScanProject.keep_file found2).
  unfold summary_of;
    cbn [ScanProject.total_files ScanProject.files_with_bugs
         ScanProject.total_issues ScanProject.files
         ScanProject.severity_breakdown].
  rewrite !map_app, filter_app, !length_app, !Nat2Z.inj_add, sum_app.
  repeat split.
  intros s; rewrite !bucket_totals, !map_app, sum_app.
  destruct (valid_severity s); reflexivity.
Qed.

(** ** The code metrics *)

Lemma readlines_nil (s : string) : Metrics.readlines s = [] -> s = "".
Proof.
  destruct s as [|c s]; [reflexivity|]; cbn [Metrics.readlines].
  destruct (Ascii.eqb c LF); [discriminate|].
  destruct (Metrics.readlines s); discriminate.
Qed.

Lemma readlines_concat (s : string) :
  String.concat "" (Metrics.readlines s) = s.
Proof.
  induction s as [|c s IH]; [reflexivity|]; cbn [Metrics.readlines].
  destruct (Ascii.eqb_spec c LF) as [->|Hne].
  - destruct (Metrics.readlines s) as [|l ls] eqn:Hl.
    + apply readlines_nil in Hl; subst s; reflexivity.
    + cbn [String.concat String.append] in *; now rewrite IH.
  - destruct (Metrics.readlines s) as [|l ls] eqn:Hl.
    + apply readlines_nil in Hl; subst s; reflexivity.
    + destruct ls as [|l' ls]; cbn [String.concat String.append] in *;
        now rewrite IH.
Qed.

Lemma split_readlines (s : string) :
  Z.of_nat (List.length (split LF s))
  = Z.of_nat (List.length (Metrics.readlines s))
    + (if ends_line s then 1 else 0).
Proof.
  induction s as [|c s IH]; [reflexivity|].
  cbn [split Metrics.readlines].
  assert (He : ends_line (String c s)
               = if Ascii.eqb c LF then ends_line s
                 else match s with "" => false | _ => ends_line s end).
  { destruct s as [|c' s]; cbn [ends_line];
      destruct (Ascii.eqb c LF); reflexivity. }
  rewrite He; destruct (Ascii.eqb c LF).
  - cbn [List.length]; rewrite !Nat2Z.inj_succ; lia.
  - pose proof (split_not_nil LF s) as Hne.
    destruct (split LF s) as [|l ls] eqn:Hs; [contradiction|].
    destruct (Metrics.readlines s) as [|r rs] eqn:Hr.
    + apply readlines_nil in Hr; subst s.
      cbn in Hs; injection Hs as <- <-; reflexivity.
    + destruct s as [|c' s]; [discriminate Hr|].
      cbn [List.length] in *; lia.
Qed.

(** X16. Joining the lines that [readlines] gives restores the text, and
    the line count of the feature vector is the number of these lines,
    plus one when the text is empty or ends with a line feed. *)
Theorem readlines_round_trip (text : string) :
  String.concat "" (Metrics.readlines text) = text
  /\ nth 0 (extract_features text) 0
     = Z.of_nat (List.length (Metrics.readlines text))
       + (if ends_line text then 1 else 0).
Proof.
  split; [apply readlines_concat|].
  unfold extract_features; cbn [nth]; apply split_readlines.
Qed.

Lemma count_lines_fold (lines : list string) (m : Metrics.MetricsDict) :
  fold_left Metrics.count_line lines m
  = {| Metrics.total_lines := Metrics.total_lines m;
       Metrics.total_files := Metrics.total_files m;
       Metrics.avg_file_length := Metrics.avg_file_length m;
       Metrics.comment_lines :=
         Metrics.comment_lines m
         + Z.of_nat (List.length (filter is_comment lines));
       Metrics.blank_lines :=
         Metrics.blank_lines m
         + Z.of_nat (List.length (filter is_blank lines)) |}.
Proof.
  revert m; induction lines as [|l lines IH]; intros m;
    cbn [fold_left filter List.length].
  - destruct m; cbn; f_equal; lia.
  - rewrite IH; unfold Metrics.count_line, is_comment, is_blank.
    destruct (String.eqb (strip l) ""); cbn [negb andb];
      [|destruct (String.prefix "#" (strip l) || String.prefix "//" (strip l))];
      cbn [Metrics.total_lines Metrics.total_files Metrics.avg_file_length
           Metrics.comment_lines Metrics.blank_lines List.length];
      f_equal; rewrite ?Nat2Z.inj_succ; lia.
Qed.

(** The counters after the loop over the files. *)
Lemma count_files_fold (found : list ScanProject.SourceFile)
  (keep : string -> bool) (m : Metrics.MetricsDict) :
  let texts := map snd (scanned_files keep found) in
  fold_left Metrics.count_file (filter (fun f => keep (fst f)) found) m
  = {| Metrics.total_lines :=
         Metrics.total_lines m
         + Py.sum (map (fun t => Z.of_nat (List.length (Metrics.readlines t)))
                       texts);
       Metrics.total_files := Metrics.total_files m + Z.of_nat (List.length texts);
       Metrics.avg_file_length := Metrics.avg_file_length m;
       Metrics.comment_lines :=
         Metrics.comment_lines m
         + Py.sum (map (fun t => Z.of_nat (List.length
                                   (filter is_comment (Metrics.readlines t))))
                       texts);
       Metrics.blank_lines :=
         Metrics.blank_lines m
         + Py.sum (map (fun t => Z.of_nat (List.length
                                   (filter is_blank (Metrics.readlines t))))
                       texts) |}.
Proof.
  unfold scanned_files; revert m;
    induction found as [|[p [text|e]] found IH]; intros m;
    cbn [filter flat_map fst snd].
  - cbn; unfold Py.sum; cbn; destruct m; cbn; f_equal; lia.
  - destruct (keep p); cbn [app map fold_left List.length]; [|apply IH].
    rewrite IH; unfold Metrics.count_file; cbn [snd].
    rewrite count_lines_fold, !sum_cons, Nat2Z.inj_succ.
    cbn [Metrics.total_lines Metrics.total_files Metrics.avg_file_length
         Metrics.comment_lines Metrics.blank_lines].
    f_equal; lia.
  - destruct (keep p); cbn [app fold_left]; [|apply IH].
    unfold Metrics.count_file at 2; cbn [snd]; apply IH.
Qed.

Lemma filter_true {A : Type} (l : list A) : filter (fun _ => true) l = l.
Proof. induction l as [|a l IH]; cbn [filter]; [|rewrite IH]; reflexivity. Qed.

Lemma calculate_metrics_closed_form (found : list ScanProject.SourceFile) :
  Metrics.calculate_metrics found = Ok (metrics_of found).
Proof.
  unfold Metrics.calculate_metrics, metrics_of, lines_where.
  rewrite (count_files_fold found
             (fun p => negb (contains "node_modules" p)) Metrics.metrics_init).
  fold (counted_texts found); set (texts := counted_texts found).
  cbn [Metrics.total_lines Metrics.total_files Metrics.avg_file_length
       Metrics.comment_lines Metrics.blank_lines Metrics.metrics_init].
  rewrite !Z.add_0_l.
  rewrite (map_ext _ _ (fun t => f_equal (fun l => Z.of_nat (List.length l))
                                   (filter_true (Metrics.readlines t)))).
  destruct (Z.of_nat (List.length texts) >? 0) eqn:Hn.
  - unfold Metrics.int_truediv.
    replace (Z.of_nat (List.length texts) =? 0) with false
      by (symmetry; apply Z.eqb_neq; lia).
    reflexivity.
  - replace (Z.of_nat (List.length texts) =? 0) with true
      by (symmetry; apply Z.eqb_eq; lia).
    reflexivity.
Qed.

(** X14. The dict that [calculate_metrics] builds counts the files that
    can be read and have no [node_modules] in their path: their number,
    their lines, and among these the blank ones and the ones that start
    with [#] or [//] once stripped; the average is the quotient of lines
    by files, and stays 0 when no file was read. *)
Theorem calculate_metrics_counts (found : list ScanProject.SourceFile) :
  let texts :=
    map snd (scanned_files (fun p => negb (contains "node_modules" p)) found) in
  exists metrics,
    Metrics.calculate_metrics found = Ok metrics
    /\ Metrics.total_files metrics = Z.of_nat (List.length texts)
    /\ Metrics.total_lines metrics
       = Py.sum (map (fun t => Z.of_nat (List.length (Metrics.readlines t)))
                     texts)
    /\ Metrics.blank_lines metrics
       = Py.sum (map (fun t => Z.of_nat (List.length
                                 (filter is_blank (Metrics.readlines t))))
                     texts)
    /\ Metrics.comment_lines metrics
       = Py.sum (map (fun t => Z.of_nat (List.length
                                 (filter is_comment (Metrics.readlines t))))
                     texts)
    /\ Metrics.avg_file_length metrics
       = if Metrics.total_files metrics =? 0 then f0_0
         else SFdiv prec emax (Metrics.exact (Metrics.total_lines metrics))
                    (Metrics.exact (Metrics.total_files metrics)).
Proof.
  intros texts; exists (metrics_of found).
  split; [apply calculate_metrics_closed_form|].
  unfold metrics_of, lines_where; fold (counted_texts found) in texts.
  cbn [Metrics.total_lines Metrics.total_files Metrics.avg_file_length
       Metrics.comment_lines Metrics.blank_lines].
  rewrite (map_ext _ _ (fun t => f_equal (fun l => Z.of_nat (List.length l))
                                   (filter_true (Metrics.readlines t)))).
  repeat split.
Qed.

Lemma blank_comment_length (lines : list string) :
  (List.length (filter is_blank lines) + List.length (filter is_comment lines)
   <= List.length lines)%nat.
Proof.
  induction lines as [|l lines IH]; cbn [filter List.length]; [lia|].
  unfold is_comment at 1; destruct (is_blank l); cbn [negb andb List.length];
    [lia|].
  destruct (String.prefix "#" (strip l) || String.prefix "//" (strip l));
    cbn [List.length]; lia.
Qed.

Lemma sum_map_le {A : Type} (f g : A -> Z) (l : list A) :
  (forall x, f x <= g x) -> Py.sum (map f l) <= Py.sum (map g l).
Proof.
  intros H; induction l as [|a l IH]; cbn [map]; [unfold Py.sum; cbn; lia|].
  rewrite !sum_cons; specialize (H a); lia.
Qed.

(** X15. In the metrics the blank and the comment lines together never
    exceed the lines, no counter is negative and the files counted are at
    most the files found. *)
Theorem calculate_metrics_invariants (found : list ScanProject.SourceFile) :
  exists metrics,
    Metrics.calculate_metrics found = Ok metrics
    /\ 0 <= Metrics.blank_lines metrics
    /\ 0 <= Metrics.comment_lines metrics
    /\ Metrics.blank_lines metrics + Metrics.comment_lines metrics
       <= Metrics.total_lines metrics
    /\ 0 <= Metrics.total_files metrics <= Z.of_nat (List.length found).
Proof.
  exists (metrics_of found); split; [apply calculate_metrics_closed_form|].
  unfold metrics_of, lines_where, counted_texts.
  cbn [Metrics.total_lines Metrics.total_files Metrics.comment_lines
       Metrics.blank_lines].
  rewrite (map_ext _ _ (fun t => f_equal (fun l => Z.of_nat (List.length l))
                                   (filter_true (Metrics.readlines t)))).
  set (texts := map snd (scanned_files _ found)).
  split; [|split; [|split]].
  - apply Z.le_trans with (Py.sum (map (fun _ => 0) texts)).
    + clear; induction texts; [unfold Py.sum; cbn; lia|].
      cbn [map]; rewrite sum_cons; lia.
    + apply sum_map_le; intros; lia.
  - apply Z.le_trans with (Py.sum (map (fun _ => 0) texts)).
    + clear; induction texts; [unfold Py.sum; cbn; lia|].
      cbn [map]; rewrite sum_cons; lia.
    + apply sum_map_le; intros; lia.
  - rewrite <- sum_map_add; apply sum_map_le; intros t.
    pose proof (blank_comment_length (Metrics.readlines t)); lia.
  - unfold texts; rewrite length_map.
    pose proof (scanned_files_kept
                  (fun p => negb (contains "node_modules" p)) found) as [_ H].
    lia.
Qed.

(** ** The feature vector *)

Lemma prefix_length (sub s : string) :
  String.prefix sub s = true -> (String.length sub <= String.length s)%nat.
Proof.
  revert s; induction sub as [|a sub IH]; intros s; cbn [String.length];
    [lia|].
  destruct s as [|b s]; cbn [String.prefix String.length]; [discriminate|].
  destruct (ascii_dec a b); [|discriminate].
  intros H; specialize (IH s H); lia.
Qed.

(** Occurrences do not overlap: together they fit in the text. *)
Lemma count_from_fits (sub s : string) (skip : nat) :
  count_from sub s skip * Z.of_nat (String.length sub)
  + Z.of_nat (Nat.min skip (String.length s))
  <= Z.of_nat (String.length s).
Proof.
  revert skip; induction s as [|c s IH]; intros skip;
    cbn [count_from String.length]; [lia|].
  destruct skip as [|k].
  - destruct (String.prefix sub (String c s)) eqn:Hp.
    + apply prefix_length in Hp; cbn [String.length] in Hp.
      specialize (IH (String.length sub - 1)%nat); nia.
    + specialize (IH 0%nat); lia.
  - specialize (IH k); lia.
Qed.

Lemma count_fits (s sub : string) : count s sub * len sub <= len s.
Proof.
  unfold len; destruct sub as [|a sub]; [cbn; lia|].
  pose proof (count_from_fits (String a sub) s 0); cbn [count]; lia.
Qed.

Lemma count_line_feeds (s : string) :
  count s (String LF "") + 1 = Z.of_nat (List.length (split LF s)).
Proof.
  cbn [count]; induction s as [|c s IH]; [reflexivity|].
  cbn [count_from split String.prefix String.length Nat.sub].
  destruct (Ascii.eqb_spec c LF) as [->|Hne].
  - destruct (ascii_dec LF LF) as [_|Hn]; [|contradiction].
    replace (String.prefix "" s) with true by (destruct s; reflexivity).
    cbn [List.length]; rewrite Nat2Z.inj_succ; lia.
  - destruct (ascii_dec LF c) as [He|_]; [congruence|].
    pose proof (split_not_nil LF s) as Hnil.
    destruct (split LF s); [contradiction|cbn [List.length] in *; lia].
Qed.

(** X1. The feature vector has ten entries, none negative; its line count
    is the number of line feeds plus one, so the flag of too many lines is
    set exactly above 301 lines; occurrences of a keyword do not overlap,
    so a count times the length of its keyword is at most the length of
    the text. *)
Theorem extract_features_invariants (code : string) :
  let features := extract_features code in
  List.length features = 10%nat
  /\ Forall (fun entry => 0 <= entry) features
  /\ nth 0 features 0 = count code (String LF "") + 1
  /\ nth 8 features 0 = (if 301 <? nth 0 features 0 then 1 else 0)
  /\ 2 * nth 1 features 0 <= len code
  /\ 15 * nth 2 features 0 <= 8 * len code
  /\ forall sub, count code sub * len sub <= len code.
Proof.
  cbv zeta; unfold extract_features; cbn [nth List.length].
  assert (Hc : forall sub, 0 <= count code sub) by (intros; apply count_nonneg).
  pose proof (count_line_feeds code) as Hlf.
  pose proof (count_constant_runs_bounds code None) as Hr.
  split; [reflexivity|]; split; [|split; [lia|split; [|split; [|split]]]].
  - repeat constructor; try lia;
      try (pose proof (Hc "for"); pose proof (Hc "while"); pose proof (Hc "def");
           pose proof (Hc "function"); pose proof (Hc "import");
           pose proof (Hc "require"); pose proof (Hc "# TODO");
           pose proof (Hc "// TODO"); pose proof (Hc "if"); pose proof (Hc "try");
           unfold findall_constants; lia);
      match goal with |- context [if ?b then _ else _] => destruct b; lia end.
  - rewrite <- Hlf, Z.gtb_ltb.
    replace (301 <? count code (String LF "") + 1)
      with (300 <? count code (String LF "")); [reflexivity|].
    destruct (Z.ltb_spec 300 (count code (String LF "")));
      destruct (Z.ltb_spec 301 (count code (String LF "") + 1)); lia.
  - pose proof (count_fits code "if") as H.
    change (len "if") with 2 in H; lia.
  - pose proof (count_fits code "for") as Hf.
    pose proof (count_fits code "while") as Hw.
    change (len "for") with 3 in Hf; change (len "while") with 5 in Hw; lia.
  - apply count_fits.
Qed.

(** X2.  A text to which [complexity_score_in_int64] applies. *)
Lemma complexity_score_in_int64_witness :
  len null_comparison < 2 ^ 61
  /\ Forall int64 (extract_features null_comparison)
  /\ int64 (complexity_score_of (extract_features null_comparison)).
Proof.
  assert (H : len null_comparison < 2 ^ 61) by (vm_compute; reflexivity).
  split; [exact H|exact (complexity_score_in_int64 null_comparison H)].
Defined.

(** ** The decision of [predict] *)

Lemma analysis_score (code : string) :
  confidence (analysis code)
  = Py.min f0_95
      (weighted_sum (count code "if" + (count code "for" + count code "while"))
                    (Z.of_nat (List.length (split LF code)))).
Proof. reflexivity. Qed.

(** X7. [has_bugs] is decided by the counts alone: it holds exactly when
    there is a finding, or 100 * complexity_score + line_count is above
    300, or it is 300 with a complexity score that is not 0 (the float sum
    then rounds above 0.3). *)
Theorem predict_has_bugs_threshold (code : string) :
  exists r, predict code = Ok r
    /\ has_bugs r
       = ((0 <? total_issues r)
          || exceeds_threshold
               (count code "if" + (count code "for" + count code "while"))
               (Z.of_nat (List.length (split LF code)))).
Proof.
  exists (analysis code); split; [apply predict_closed_form|].
  pose proof (count_nonneg code "if"); pose proof (count_nonneg code "for").
  pose proof (count_nonneg code "while").
  destruct (scorer_threshold
              (count code "if" + (count code "for" + count code "while"))
              (Z.of_nat (List.length (split LF code)))
              ltac:(lia) (split_length_pos LF code)) as [Hth _].
  rewrite <- Hth, <- analysis_score; cbn [analysis has_bugs total_issues confidence].
  apply orb_comm.
Qed.

(** X8. The confidence is 0.95 exactly when
    100 * complexity_score + line_count is at least 950. *)
Theorem predict_confidence_saturates (code : string) :
  exists r, predict code = Ok r
    /\ feq (confidence r) f0_95
       = (950 <=? 100 * (count code "if"
                         + (count code "for" + count code "while"))
                  + Z.of_nat (List.length (split LF code))).
Proof.
  exists (analysis code); split; [apply predict_closed_form|].
  pose proof (count_nonneg code "if"); pose proof (count_nonneg code "for").
  pose proof (count_nonneg code "while").
  destruct (scorer_threshold
              (count code "if" + (count code "for" + count code "while"))
              (Z.of_nat (List.length (split LF code)))
              ltac:(lia) (split_length_pos LF code)) as [_ Hsat].
  rewrite analysis_score, Hsat; reflexivity.
Qed.

(** ** The synthetic training data *)

(** On the synthetic training data, [predict] flags every sample
    labelled buggy but the last one, [if condition == True:], and flags
    no sample labelled clean, in which it finds no issue. *)
Example training_data_labels :
  let flagged text :=
    match predict text with
    | Ok r => Some (has_bugs r, total_issues r)
    | Raise _ => None
    end in
  map flagged (fst Train.generate_training_data)
  = [Some (true, 1); Some (true, 1); Some (true, 1); Some (true, 1);
     Some (true, 1); Some (true, 1); Some (true, 2); Some (true, 1);
     Some (true, 1); Some (false, 0)]
  /\ map flagged (snd Train.generate_training_data)
     = [Some (false, 0); Some (false, 0); Some (false, 0); Some (false, 0);
        Some (false, 0); Some (false, 0); Some (false, 0); Some (false, 0);
        Some (false, 0); Some (false, 0)].
Proof. cbv zeta; split; vm_compute; reflexivity. Qed.
